(** * Hotel data merge: supplier adapters, merge engine and query layer

    A shallow embedding of [main.py]: the three supplier adapters
    ([Acme.parse], [Patagonia.parse], [Paperflies.parse]), the merge engine
    ([HotelsService.merge_and_save], [HotelsService._merge]) and the query
    layer ([HotelsService.find]), followed by the properties of the
    specification that concern them. *)

From Corelib Require Import PrimFloat.
From Stdlib Require Import ZArith String Ascii List Bool Arith Lia Permutation.
Import ListNotations.
Local Open Scope string_scope.
Local Open Scope list_scope.
#[local] Set Warnings "-register-all".

(** ** Python values, exceptions and outcomes *)

(** What [resp.json()] can hold.  A dict is an association list read with
    the first binding of a key; a string is a sequence of code points below
    256, one per [ascii]. *)
Inductive value : Type :=
| VNone
| VBool (b : bool)
| VInt (z : Z)
| VFloat (f : float)
| VStr (s : string)
| VList (l : list value)
| VDict (d : list (string * value)).

Definition dict : Type := list (string * value).

(** The exceptions the modelled code can raise, by class. *)
Inductive exn : Type :=
| KeyError (key : string)
| AttributeError (attr : string)
| TypeError.

Definition exn_class (e : exn) : string :=
  match e with
  | KeyError _ => "KeyError"
  | AttributeError _ => "AttributeError"
  | TypeError => "TypeError"
  end.

(** A call either returns a value or raises. *)
Inductive outcome (A : Type) : Type :=
| Return (a : A)
| Raise (e : exn).
Arguments Return {A} a.
Arguments Raise {A} e.

Definition bind {A B : Type} (c : outcome A) (k : A -> outcome B) : outcome B :=
  match c with
  | Return a => k a
  | Raise e => Raise e
  end.

Notation "x <- c ;; k" := (bind c (fun x => k))
  (at level 61, c at next level, right associativity).

Definition raises {A : Type} (c : outcome A) : bool :=
  match c with Return _ => false | Raise _ => true end.

(** [for x in xs: ...] with a body that can raise: elements in order, the
    first exception ends the loop. *)
Fixpoint traverse {A B : Type} (f : A -> outcome B) (xs : list A)
  : outcome (list B) :=
  match xs with
  | [] => Return []
  | x :: rest =>
      y <- f x ;;
      ys <- traverse f rest ;;
      Return (y :: ys)
  end.

(** ** Dictionaries in insertion order *)

Section Dict.
Context {K V : Type} (eqb : K -> K -> bool).

(** [k in d] / [d[k]] *)
Fixpoint dict_get (d : list (K * V)) (k : K) : option V :=
  match d with
  | [] => None
  | (k', v) :: rest => if eqb k k' then Some v else dict_get rest k
  end.

(** [d[k] = v]: a new key goes last, an old key keeps its position. *)
Fixpoint dict_set (d : list (K * V)) (k : K) (v : V) : list (K * V) :=
  match d with
  | [] => [(k, v)]
  | (k', v') :: rest =>
      if eqb k k' then (k', v) :: rest else (k', v') :: dict_set rest k v
  end.

(** [d.values()] *)
Definition dict_values (d : list (K * V)) : list V := map snd d.

(** [{key(x): x for x in xs}] *)
Definition dict_of (key : V -> K) (xs : list V) : list (K * V) :=
  fold_left (fun d x => dict_set d (key x) x) xs [].
End Dict.

(** The keys of a JSON object, each once, in order of first appearance. *)
Fixpoint dict_keys (d : dict) : list string :=
  match d with
  | [] => []
  | (k, _) :: rest =>
      k :: filter (fun k' => negb (String.eqb k' k)) (dict_keys rest)
  end.

(** ** Strings *)

(** [str.isspace] on one code point below 256. *)
Definition is_space (c : ascii) : bool :=
  let n := nat_of_ascii c in
  (((9 <=? n) && (n <=? 13)) || ((28 <=? n) && (n <=? 32))
   || (n =? 133) || (n =? 160))%nat.

Fixpoint lstrip (s : string) : string :=
  match s with
  | EmptyString => EmptyString
  | String c rest => if is_space c then lstrip rest else s
  end.

Fixpoint rstrip (s : string) : string :=
  match s with
  | EmptyString => EmptyString
  | String c rest =>
      match rstrip rest with
      | EmptyString => if is_space c then EmptyString else String c EmptyString
      | r => String c r
      end
  end.

(** [s.strip()] *)
Definition strip (s : string) : string := rstrip (lstrip s).

Definition lower_char (c : ascii) : ascii :=
  let n := nat_of_ascii c in
  if (((65 <=? n) && (n <=? 90))
      || ((192 <=? n) && (n <=? 222) && negb (n =? 215)))%nat
  then ascii_of_nat (n + 32) else c.

(** [s.lower()] *)
Fixpoint lower (s : string) : string :=
  match s with
  | EmptyString => EmptyString
  | String c rest => String (lower_char c) (lower rest)
  end.

(** The one-character strings of [s], what iterating a [str] yields. *)
Fixpoint chars (s : string) : list string :=
  match s with
  | EmptyString => []
  | String c rest => String c EmptyString :: chars rest
  end.

(** ** Operations on dynamically typed values *)

(** [dto[k]] on a dict *)
Definition getitem (d : dict) (k : string) : outcome value :=
  match dict_get String.eqb d k with
  | Some v => Return v
  | None => Raise (KeyError k)
  end.

(** [dto.get(k, default)] on a dict *)
Definition get (d : dict) (k : string) (default : value) : value :=
  match dict_get String.eqb d k with
  | Some v => v
  | None => default
  end.

(** [v.get(k, default)] on any value: only a dict has [get]. *)
Definition value_get (v : value) (k : string) (default : value)
  : outcome value :=
  match v with
  | VDict d => Return (get d k default)
  | _ => Raise (AttributeError "get")
  end.

(** [v[k]] with a string [k]: a dict looks the key up, a list or a string
    wants an integer index, nothing else is subscriptable. *)
Definition value_getitem (v : value) (k : string) : outcome value :=
  match v with
  | VDict d => getitem d k
  | _ => Raise TypeError
  end.

(** [for x in v]: a list yields its elements, a string its characters, a
    dict its keys; nothing else is iterable. *)
Definition iterate (v : value) : outcome (list value) :=
  match v with
  | VList l => Return l
  | VStr s => Return (map VStr (chars s))
  | VDict d => Return (map VStr (dict_keys d))
  | _ => Raise TypeError
  end.

(** [v.strip()] *)
Definition value_strip (v : value) : outcome string :=
  match v with
  | VStr s => Return (strip s)
  | _ => Raise (AttributeError "strip")
  end.

(** [v.lower()] *)
Definition value_lower (v : value) : outcome string :=
  match v with
  | VStr s => Return (lower s)
  | _ => Raise (AttributeError "lower")
  end.

(** Truth value of an attribute that is [None] or a float: [None] and
    [0.0] are false. *)
Definition truthy_float (v : option float) : bool :=
  match v with
  | None => false
  | Some f => negb (PrimFloat.eqb f 0%float)
  end.

(** Truth value of an attribute that is [None] or a string: [None] and
    the empty string are false. *)
Definition truthy_str (v : option string) : bool :=
  match v with
  | None => false
  | Some s => negb (String.eqb s "")
  end.

(** ** Objects as the adapters build them

    Python does not enforce the dataclass annotations: an attribute copied
    from the raw record holds whatever the record held.  [Obj] has the five
    dataclasses with such attributes; only the amenity lists are typed,
    because [lower] has run on each entry. *)
Module Obj.

Record Location : Type := {
  Location_lat : value;
  Location_lng : value;
  Location_address : value;
  Location_city : value;
  Location_country : value
}.

Record Amenities : Type := {
  Amenities_general : list string;
  Amenities_room : list string
}.

Record Image : Type := {
  Image_link : value;
  Image_description : value
}.

Record Images : Type := {
  Images_rooms : list Image;
  Images_site : list Image;
  Images_amenities : list Image
}.

Record Hotel : Type := {
  Hotel_id : value;
  Hotel_source : string;
  Hotel_destination_id : value;
  Hotel_name : value;
  Hotel_location : Location;
  Hotel_description : value;
  Hotel_amenities : Amenities;
  Hotel_images : Images;
  Hotel_booking_conditions : value
}.

(** The defaults of the dataclass fields. *)
Definition default_Amenities : Amenities :=
  {| Amenities_general := []; Amenities_room := [] |}.

Definition default_Images : Images :=
  {| Images_rooms := []; Images_site := []; Images_amenities := [] |}.

End Obj.

(** [[Image(link=image[k_link], description=image[k_desc]) for image in v]] *)
Definition parse_images (k_link k_desc : string) (v : value)
  : outcome (list Obj.Image) :=
  images <- iterate v ;;
  traverse (fun image =>
              l <- value_getitem image k_link ;;
              d <- value_getitem image k_desc ;;
              Return {| Obj.Image_link := l; Obj.Image_description := d |})
           images.

(** [[amenity.lower() for amenity in v]] *)
Definition parse_amenities (v : value) : outcome (list string) :=
  amenities <- iterate v ;;
  traverse value_lower amenities.

Module Acme.

Definition parse (dto : dict) : outcome Obj.Hotel :=
  id <- getitem dto "Id" ;;
  destination_id <- getitem dto "DestinationId" ;;
  name <- getitem dto "Name" ;;
  let description := get dto "Description" (VStr "") in
  let lat := get dto "Latitude" VNone in
  let lng := get dto "Longitude" VNone in
  address <- value_strip (get dto "Address" (VStr "")) ;;
  postal_code <- value_strip (get dto "PostalCode" (VStr "")) ;;
  let city := get dto "City" VNone in
  let country := get dto "Country" VNone in
  Return {| Obj.Hotel_id := id;
            Obj.Hotel_source := "Acme";
            Obj.Hotel_destination_id := destination_id;
            Obj.Hotel_name := name;
            Obj.Hotel_location :=
              {| Obj.Location_lat := lat;
                 Obj.Location_lng := lng;
                 Obj.Location_address := VStr (address ++ ", " ++ postal_code)%string;
                 Obj.Location_city := city;
                 Obj.Location_country := country |};
            Obj.Hotel_description := description;
            Obj.Hotel_amenities := Obj.default_Amenities;
            Obj.Hotel_images := Obj.default_Images;
            Obj.Hotel_booking_conditions := VList [] |}.

End Acme.

Module Patagonia.

Definition parse (dto : dict) : outcome Obj.Hotel :=
  id <- getitem dto "id" ;;
  destination_id <- getitem dto "destination" ;;
  name <- getitem dto "name" ;;
  let description := get dto "info" (VStr "") in
  let lat := get dto "lat" VNone in
  let lng := get dto "lng" VNone in
  let address := get dto "address" VNone in
  images <- getitem dto "images" ;;
  rooms_raw <- value_get images "rooms" (VList []) ;;
  rooms <- parse_images "url" "description" rooms_raw ;;
  images <- getitem dto "images" ;;
  amenities_raw <- value_get images "amenities" (VList []) ;;
  amenities <- parse_images "url" "description" amenities_raw ;;
  Return {| Obj.Hotel_id := id;
            Obj.Hotel_source := "Patagonia";
            Obj.Hotel_destination_id := destination_id;
            Obj.Hotel_name := name;
            Obj.Hotel_location :=
              {| Obj.Location_lat := lat;
                 Obj.Location_lng := lng;
                 Obj.Location_address := address;
                 Obj.Location_city := VNone;
                 Obj.Location_country := VNone |};
            Obj.Hotel_description := description;
            Obj.Hotel_amenities := Obj.default_Amenities;
            Obj.Hotel_images :=
              {| Obj.Images_rooms := rooms;
                 Obj.Images_site := [];
                 Obj.Images_amenities := amenities |};
            Obj.Hotel_booking_conditions := VList [] |}.

End Patagonia.

Module Paperflies.

Definition parse (dto : dict) : outcome Obj.Hotel :=
  let location_data := get dto "location" (VDict []) in
  id <- getitem dto "hotel_id" ;;
  destination_id <- getitem dto "destination_id" ;;
  name <- getitem dto "hotel_name" ;;
  let description := get dto "details" (VStr "") in
  address <- value_get location_data "address" VNone ;;
  country <- value_get location_data "country" VNone ;;
  general_raw <- value_get (get dto "amenities" (VDict [])) "general" (VList []) ;;
  general <- parse_amenities general_raw ;;
  room_raw <- value_get (get dto "amenities" (VDict [])) "room" (VList []) ;;
  room <- parse_amenities room_raw ;;
  images <- getitem dto "images" ;;
  rooms_raw <- value_get images "rooms" (VList []) ;;
  rooms <- parse_images "link" "caption" rooms_raw ;;
  images <- getitem dto "images" ;;
  site_raw <- value_get images "site" (VList []) ;;
  site <- parse_images "link" "caption" site_raw ;;
  let booking_conditions := get dto "booking_conditions" (VList []) in
  Return {| Obj.Hotel_id := id;
            Obj.Hotel_source := "Paperflies";
            Obj.Hotel_destination_id := destination_id;
            Obj.Hotel_name := name;
            Obj.Hotel_location :=
              {| Obj.Location_lat := VNone;
                 Obj.Location_lng := VNone;
                 Obj.Location_address := address;
                 Obj.Location_city := VNone;
                 Obj.Location_country := country |};
            Obj.Hotel_description := description;
            Obj.Hotel_amenities :=
              {| Obj.Amenities_general := general;
                 Obj.Amenities_room := room |};
            Obj.Hotel_images :=
              {| Obj.Images_rooms := rooms;
                 Obj.Images_site := site;
                 Obj.Images_amenities := [] |};
            Obj.Hotel_booking_conditions := booking_conditions |}.

End Paperflies.

(** ** The canonical entity

    The five dataclasses with every attribute typed by its annotation.
    An attribute that defaults to [None] is an [option]; [Hotel_source] is
    [None] once [del base.source] has run, [Hotel_location] is [None] when
    the attribute holds Python's [None]. *)

Record Location : Type := {
  Location_lat : option float;
  Location_lng : option float;
  Location_address : option string;
  Location_city : option string;
  Location_country : option string
}.

Record Amenities : Type := {
  Amenities_general : list string;
  Amenities_room : list string
}.

Record Image : Type := {
  Image_link : string;
  Image_description : string
}.

Record Images : Type := {
  Images_rooms : list Image;
  Images_site : list Image;
  Images_amenities : list Image
}.

Record Hotel : Type := {
  Hotel_id : string;
  Hotel_source : option string;
  Hotel_destination_id : Z;
  Hotel_name : string;
  Hotel_location : option Location;
  Hotel_description : string;
  Hotel_amenities : Amenities;
  Hotel_images : Images;
  Hotel_booking_conditions : list string
}.

(** An adapter's object read at the annotated types, when it has them. *)
Definition as_str (v : value) : option string :=
  match v with VStr s => Some s | _ => None end.

Definition as_int (v : value) : option Z :=
  match v with VInt z => Some z | _ => None end.

Definition as_opt_float (v : value) : option (option float) :=
  match v with VNone => Some None | VFloat f => Some (Some f) | _ => None end.

Definition as_opt_str (v : value) : option (option string) :=
  match v with VNone => Some None | VStr s => Some (Some s) | _ => None end.

Fixpoint all_some {A : Type} (xs : list (option A)) : option (list A) :=
  match xs with
  | [] => Some []
  | Some x :: rest => option_map (cons x) (all_some rest)
  | None :: _ => None
  end.

Definition as_str_list (v : value) : option (list string) :=
  match v with VList l => all_some (map as_str l) | _ => None end.

Definition canonical_image (i : Obj.Image) : option Image :=
  match as_str (Obj.Image_link i), as_str (Obj.Image_description i) with
  | Some l, Some d => Some {| Image_link := l; Image_description := d |}
  | _, _ => None
  end.

Definition canonical_location (l : Obj.Location) : option Location :=
  match as_opt_float (Obj.Location_lat l), as_opt_float (Obj.Location_lng l),
        as_opt_str (Obj.Location_address l), as_opt_str (Obj.Location_city l),
        as_opt_str (Obj.Location_country l) with
  | Some lat, Some lng, Some address, Some city, Some country =>
      Some {| Location_lat := lat; Location_lng := lng;
              Location_address := address; Location_city := city;
              Location_country := country |}
  | _, _, _, _, _ => None
  end.

Definition canonical (h : Obj.Hotel) : option Hotel :=
  match as_str (Obj.Hotel_id h), as_int (Obj.Hotel_destination_id h),
        as_str (Obj.Hotel_name h), canonical_location (Obj.Hotel_location h),
        as_str (Obj.Hotel_description h),
        all_some (map canonical_image (Obj.Images_rooms (Obj.Hotel_images h))),
        all_some (map canonical_image (Obj.Images_site (Obj.Hotel_images h))),
        all_some (map canonical_image (Obj.Images_amenities (Obj.Hotel_images h))),
        as_str_list (Obj.Hotel_booking_conditions h) with
  | Some id, Some destination_id, Some name, Some location, Some description,
    Some rooms, Some site, Some amenities, Some booking_conditions =>
      Some {| Hotel_id := id;
              Hotel_source := Some (Obj.Hotel_source h);
              Hotel_destination_id := destination_id;
              Hotel_name := name;
              Hotel_location := Some location;
              Hotel_description := description;
              Hotel_amenities :=
                {| Amenities_general :=
                     Obj.Amenities_general (Obj.Hotel_amenities h);
                   Amenities_room :=
                     Obj.Amenities_room (Obj.Hotel_amenities h) |};
              Hotel_images :=
                {| Images_rooms := rooms; Images_site := site;
                   Images_amenities := amenities |};
              Hotel_booking_conditions := booking_conditions |}
  | _, _, _, _, _, _, _, _, _ => None
  end.

(** ** The merge engine *)

(** [list(set(xs))]: the elements of [xs], each once, in the order the
    interpreter's hash table yields them.  The order is not fixed by the
    language, so it is a parameter with the two facts that are. *)
Class SetOrder : Type := {
  set_list : list string -> list string;
  set_list_NoDup : forall xs, NoDup (set_list xs);
  set_list_In : forall xs x, In x (set_list xs) <-> In x xs
}.

(** [elif not base_value and incoming_value: setattr(...)] *)
Definition fill_in {A : Type} (truthy : A -> bool) (base_value incoming_value : A)
  : A :=
  if negb (truthy base_value) && truthy incoming_value
  then incoming_value else base_value.

(** The loop body at [field == 'country']: [incoming.source] is read only
    when [incoming_value] is true, and is missing after [del]. *)
Definition merge_country (base_value incoming_value incoming_source : option string)
  : outcome (option string) :=
  if truthy_str incoming_value then
    match incoming_source with
    | None => Raise (AttributeError "source")
    | Some source =>
        if String.eqb source "Paperflies" then Return incoming_value
        else Return (fill_in truthy_str base_value incoming_value)
    end
  else Return (fill_in truthy_str base_value incoming_value).

(** The loop over [base.location.__dataclass_fields__], in field order. *)
Definition merge_location (base incoming : Location) (incoming_source : option string)
  : outcome Location :=
  let lat := fill_in truthy_float (Location_lat base) (Location_lat incoming) in
  let lng := fill_in truthy_float (Location_lng base) (Location_lng incoming) in
  let address :=
    fill_in truthy_str (Location_address base) (Location_address incoming) in
  let city := fill_in truthy_str (Location_city base) (Location_city incoming) in
  country <- merge_country (Location_country base) (Location_country incoming)
                           incoming_source ;;
  Return {| Location_lat := lat; Location_lng := lng;
            Location_address := address; Location_city := city;
            Location_country := country |}.

Definition image_key (image : Image) : string * string :=
  (Image_link image, Image_description image).

Definition key_eqb (a b : string * string) : bool :=
  String.eqb (fst a) (fst b) && String.eqb (snd a) (snd b).

(** [list({(image.link, image.description): image for image in xs}.values())] *)
Definition dedup_images (xs : list Image) : list Image :=
  dict_values (dict_of key_eqb image_key xs).

Section Merge.
Context {set_order : SetOrder}.

(** [_merge(base, incoming)]; the result is [base] after the call. *)
Definition _merge (base incoming : Hotel) : outcome Hotel :=
  location <-
    match Hotel_location base, Hotel_location incoming with
    | Some bl, Some il =>
        l <- merge_location bl il (Hotel_source incoming) ;;
        Return (Some l)
    | Some bl, None => Return (Some bl)
    | None, il => Return il
    end ;;
  let description :=
    if negb (String.eqb (Hotel_description base) "")
    then Hotel_description base else Hotel_description incoming in
  let general :=
    set_list (Amenities_general (Hotel_amenities base)
              ++ Amenities_general (Hotel_amenities incoming)) in
  let room :=
    set_list (Amenities_room (Hotel_amenities base)
              ++ Amenities_room (Hotel_amenities incoming)) in
  let rooms :=
    dedup_images (Images_rooms (Hotel_images base)
                  ++ Images_rooms (Hotel_images incoming)) in
  let site :=
    dedup_images (Images_site (Hotel_images base)
                  ++ Images_site (Hotel_images incoming)) in
  let amenities :=
    Images_amenities (Hotel_images base)
    ++ Images_amenities (Hotel_images incoming) in
  let booking_conditions :=
    set_list (Hotel_booking_conditions base
              ++ Hotel_booking_conditions incoming) in
  Return {| Hotel_id := Hotel_id base;
            Hotel_source := None;
            Hotel_destination_id := Hotel_destination_id base;
            Hotel_name := Hotel_name base;
            Hotel_location := location;
            Hotel_description := description;
            Hotel_amenities :=
              {| Amenities_general := general; Amenities_room := room |};
            Hotel_images :=
              {| Images_rooms := rooms; Images_site := site;
                 Images_amenities := amenities |};
            Hotel_booking_conditions := booking_conditions |}.

(** [self.hotels]: hotel id to stored hotel, in insertion order. *)
Definition hotels_dict : Type := list (string * Hotel).

(** [merge_and_save(data)] on a service whose dict is [hotels]; the result
    is the dict after the call.  The records of [data] are distinct objects,
    as [fetch] builds them, so mutating the stored one in place is replacing
    the value under its key. *)
Fixpoint merge_and_save (hotels : hotels_dict) (data : list Hotel)
  : outcome hotels_dict :=
  match data with
  | [] => Return hotels
  | hotel :: rest =>
      match dict_get String.eqb hotels (Hotel_id hotel) with
      | None =>
          merge_and_save (dict_set String.eqb hotels (Hotel_id hotel) hotel) rest
      | Some base =>
          merged <- _merge base hotel ;;
          merge_and_save (dict_set String.eqb hotels (Hotel_id hotel) merged) rest
      end
  end.

End Merge.

(** ** The query layer *)

Definition is_None {A : Type} (v : option A) : bool :=
  match v with None => true | Some _ => false end.

(** [hotel.id == hotel_id and (destination_id is None or
    hotel.destination_id == destination_id)] *)
Definition position_match (hotel : Hotel) (hotel_id : string)
    (destination_id : option Z) : bool :=
  String.eqb (Hotel_id hotel) hotel_id
  && match destination_id with
     | None => true
     | Some d => Z.eqb (Hotel_destination_id hotel) d
     end.

(** How the inner loop of [find] is left: it ran out or hit [break], and
    the outer loop goes on with [results]; or it hit [return results]. *)
Inductive inner_exit : Type :=
| Continue (results : list Hotel)
| Returned (results : list Hotel).

(** [for hotel in hotels_data: if ...: results.append(hotel); break;
    return results]: the body leaves the loop on either branch, so only the
    first hotel is ever examined. *)
Definition find_inner (hotels_data : list Hotel) (hotel_id : string)
    (destination_id : option Z) (results : list Hotel) : inner_exit :=
  match hotels_data with
  | [] => Continue results
  | hotel :: _ =>
      if position_match hotel hotel_id destination_id
      then Continue (results ++ [hotel])
      else Returned results
  end.

(** [for i in range(len(hotel_ids))], from position [i] with the ids still
    to visit; running out of positions falls off the end of [find], which
    returns Python's [None]. *)
Fixpoint find_loop (hotels_data : list Hotel) (destination_ids : option (list Z))
    (i : nat) (hotel_ids : list string) (results : list Hotel)
  : outcome (option (list Hotel)) :=
  match hotel_ids with
  | [] => Return None
  | hotel_id :: rest =>
      match destination_ids with
      | None => Raise TypeError
      | Some ds =>
          match find_inner hotels_data hotel_id (nth_error ds i) results with
          | Continue results' =>
              find_loop hotels_data destination_ids (S i) rest results'
          | Returned results' => Return (Some results')
          end
      end
  end.

(** [find(hotel_ids, destination_ids)]; [Return None] is Python's [None],
    [Return (Some l)] a list. *)
Definition find (hotels : list (string * Hotel))
    (hotel_ids : option (list string)) (destination_ids : option (list Z))
  : outcome (option (list Hotel)) :=
  let hotels_data := dict_values hotels in
  if is_None hotel_ids && negb (is_None destination_ids) then
    match destination_ids with
    | Some ds =>
        Return (Some (filter (fun hotel =>
                                existsb (Z.eqb (Hotel_destination_id hotel)) ds)
                             hotels_data))
    | None => Raise TypeError
    end
  else if is_None destination_ids && negb (is_None hotel_ids) then
    match hotel_ids with
    | Some ids =>
        Return (Some (filter (fun hotel =>
                                existsb (String.eqb (Hotel_id hotel)) ids)
                             hotels_data))
    | None => Raise TypeError
    end
  else if is_None destination_ids && negb (is_None hotel_ids) then
    Return (Some hotels_data)
  else
    match hotel_ids with
    | None => Raise TypeError
    | Some ids => find_loop hotels_data destination_ids 0 ids []
    end.

(** ** The merge engine on shared objects

    [merge_and_save] stores the very objects of [data], and [_merge] changes
    the stored object in place: an object that occurs twice, in [data] or in
    [data] and in the collection, is seen changed the second time.  [Heap]
    has the two methods on objects held by reference.  It tracks the two
    kinds of object the program itself comes to share: a [Hotel]
    ([self.hotels[hotel.id] = hotel]) and a [Location]
    ([base.location = incoming.location]); the [Amenities] and [Images] of a
    hotel belong to it alone.  The definitions above are these methods on
    records that are not shared, as [fetch] builds them. *)
Module Heap.

(** A [Hotel] object: its attributes, the location by reference. *)
Record hotel_object : Type := {
  id : string;
  source : option string;
  destination_id : Z;
  name : string;
  location : option nat;
  description : string;
  amenities : Amenities;
  images : Images;
  booking_conditions : list string
}.

(** The [Hotel] objects and the [Location] objects, by reference. *)
Record heap : Type := {
  hotel_at : nat -> hotel_object;
  location_at : nat -> Location
}.

Definition update {A : Type} (f : nat -> A) (r : nat) (v : A) : nat -> A :=
  fun r' => if Nat.eqb r' r then v else f r'.

Section Merge.
Context {set_order : SetOrder}.

(** [_merge(base, incoming)] on two references, which may be one object;
    the result is the heap after the call.  The loop over the location
    fields reads and writes one field at a time, so on one shared
    [Location] it changes nothing, as [merge_location] on equal records. *)
Definition _merge (hp : heap) (base incoming : nat) : outcome heap :=
  let b := hotel_at hp base in
  let i := hotel_at hp incoming in
  located <-
    match location b, location i with
    | Some lb, Some li =>
        l <- merge_location (location_at hp lb) (location_at hp li) (source i) ;;
        Return (update (location_at hp) lb l, Some lb)
    | Some lb, None => Return (location_at hp, Some lb)
    | None, il => Return (location_at hp, il)
    end ;;
  let merged :=
    {| id := id b;
       source := None;
       destination_id := destination_id b;
       name := name b;
       location := snd located;
       description :=
         if negb (String.eqb (description b) "")
         then description b else description i;
       amenities :=
         {| Amenities_general :=
              set_list (Amenities_general (amenities b)
                        ++ Amenities_general (amenities i));
            Amenities_room :=
              set_list (Amenities_room (amenities b)
                        ++ Amenities_room (amenities i)) |};
       images :=
         {| Images_rooms :=
              dedup_images (Images_rooms (images b) ++ Images_rooms (images i));
            Images_site :=
              dedup_images (Images_site (images b) ++ Images_site (images i));
            Images_amenities :=
              Images_amenities (images b) ++ Images_amenities (images i) |};
       booking_conditions :=
         set_list (booking_conditions b ++ booking_conditions i) |} in
  Return {| hotel_at := update (hotel_at hp) base merged;
            location_at := fst located |}.

(** [merge_and_save(data)] on a list of references, with [self.hotels]
    from hotel id to reference; the result is the heap and the dict after
    the call. *)
Fixpoint merge_and_save (hp : heap) (hotels : list (string * nat))
    (data : list nat) : outcome (heap * list (string * nat)) :=
  match data with
  | [] => Return (hp, hotels)
  | hotel :: rest =>
      match dict_get String.eqb hotels (id (hotel_at hp hotel)) with
      | None =>
          merge_and_save hp
            (dict_set String.eqb hotels (id (hotel_at hp hotel)) hotel) rest
      | Some base =>
          hp' <- _merge hp base hotel ;;
          merge_and_save hp' hotels rest
      end
  end.

End Merge.



(** No object is listed twice, and no two listed objects have one
    [Location] object. *)
Definition unshared (hp : heap) (refs : list nat) : Prop :=
  NoDup refs
  /\ forall r1 r2 l,
       In r1 refs -> In r2 refs ->
       location (hotel_at hp r1) = Some l ->
       location (hotel_at hp r2) = Some l ->
       r1 = r2.

(** The records of a list as fresh objects: the record at position [r]
    is the object at reference [r], with a [Location] object of its own at
    [r] when it has a location. *)
Definition of_records (records : list Hotel) (default : Hotel) : heap :=
  {| hotel_at := fun r =>
       let h := nth r records default in
       {| id := Hotel_id h;
          source := Hotel_source h;
          destination_id := Hotel_destination_id h;
          name := Hotel_name h;
          location :=
            match Hotel_location h with Some _ => Some r | None => None end;
          description := Hotel_description h;
          amenities := Hotel_amenities h;
          images := Hotel_images h;
          booking_conditions := Hotel_booking_conditions h |};
     location_at := fun r =>
       match Hotel_location (nth r records default) with
       | Some l => l
       | None =>
           {| Location_lat := None; Location_lng := None;
              Location_address := None; Location_city := None;
              Location_country := None |}
       end |}.

End Heap.


(** ** Vocabulary of the properties *)

Inductive supplier : Type := SAcme | SPatagonia | SPaperflies.

Definition parse_of (s : supplier) : dict -> outcome Obj.Hotel :=
  match s with
  | SAcme => Acme.parse
  | SPatagonia => Patagonia.parse
  | SPaperflies => Paperflies.parse
  end.

(** The keys each adapter subscripts for [id], [destination_id] and [name],
    in the order it reads them. *)
Definition required_fields (s : supplier) : list string :=
  match s with
  | SAcme => ["Id"; "DestinationId"; "Name"]
  | SPatagonia => ["id"; "destination"; "name"]
  | SPaperflies => ["hotel_id"; "destination_id"; "hotel_name"]
  end.

Definition lookup (d : dict) (k : string) : option value :=
  dict_get String.eqb d k.

Fixpoint first_missing (dto : dict) (keys : list string) : option string :=
  match keys with
  | [] => None
  | k :: rest =>
      match lookup dto k with
      | None => Some k
      | Some _ => first_missing dto rest
      end
  end.

(** The key is absent, or its value passes [p]. *)
Definition absent_or (p : value -> bool) (d : dict) (k : string) : bool :=
  match lookup d k with
  | None => true
  | Some v => p v
  end.

Definition is_str (v : value) : bool :=
  match v with VStr _ => true | _ => false end.

Definition is_dict (v : value) : bool :=
  match v with VDict _ => true | _ => false end.

Definition is_str_list (v : value) : bool :=
  match v with VList l => forallb is_str l | _ => false end.

Definition is_image (k_link k_desc : string) (v : value) : bool :=
  match v with
  | VDict d =>
      match lookup d k_link, lookup d k_desc with
      | Some _, Some _ => true
      | _, _ => false
      end
  | _ => false
  end.

Definition is_image_list (k_link k_desc : string) (v : value) : bool :=
  match v with VList l => forallb (is_image k_link k_desc) l | _ => false end.

(** The optional fields an adapter calls a method on or iterates have the
    shape it expects when they are present; for the two adapters that
    subscript ["images"], that object is present. *)
Definition well_shaped (s : supplier) (dto : dict) : bool :=
  match s with
  | SAcme => absent_or is_str dto "Address" && absent_or is_str dto "PostalCode"
  | SPatagonia =>
      match lookup dto "images" with
      | Some (VDict images) =>
          absent_or (is_image_list "url" "description") images "rooms"
          && absent_or (is_image_list "url" "description") images "amenities"
      | _ => false
      end
  | SPaperflies =>
      absent_or is_dict dto "location"
      && match lookup dto "amenities" with
         | None => true
         | Some (VDict amenities) =>
             absent_or is_str_list amenities "general"
             && absent_or is_str_list amenities "room"
         | Some _ => false
         end
      && match lookup dto "images" with
         | Some (VDict images) =>
             absent_or (is_image_list "link" "caption") images "rooms"
             && absent_or (is_image_list "link" "caption") images "site"
         | _ => false
         end
  end.

Definition Image_eq_dec (a b : Image) : {a = b} + {a <> b}.
Proof. decide equality; apply string_dec. Defined.

(** What one assignment [d[key(x)] = x] does to the values of a gallery
    dict, as the proofs see it: a new image goes last, a known one changes
    nothing. *)
Definition add_new (vs : list Image) (x : Image) : list Image :=
  if in_dec Image_eq_dec x vs then vs else vs ++ [x].

Definition keyed (vs : list Image) : list (string * string * Image) :=
  map (fun v => (image_key v, v)) vs.

(** An adapter's object as a canonical entity, when parsing returned one
    of the annotated types. *)
Definition parse_canonical (s : supplier) (dto : dict) : option Hotel :=
  match parse_of s dto with
  | Return h => canonical h
  | Raise _ => None
  end.

Definition absent (d : dict) (k : string) : Prop := lookup d k = None.

(** The dict under key [k], or the empty dict the adapters fall back to. *)
Definition sub_dict (dto : dict) (k : string) : dict :=
  match lookup dto k with
  | Some (VDict d) => d
  | _ => []
  end.

(** Every optional field that is absent from the record has the default
    of its type in the parsed object, and so has every attribute the
    adapter never sets.  ([Acme]'s address, always set, is not listed.) *)
Definition optional_defaults (s : supplier) (dto : dict) (h : Obj.Hotel) : Prop :=
  let location := Obj.Hotel_location h in
  let images := Obj.Hotel_images h in
  let amenities := Obj.Hotel_amenities h in
  match s with
  | SAcme =>
      (absent dto "Description" -> Obj.Hotel_description h = VStr "")
      /\ (absent dto "Latitude" -> Obj.Location_lat location = VNone)
      /\ (absent dto "Longitude" -> Obj.Location_lng location = VNone)
      /\ (absent dto "City" -> Obj.Location_city location = VNone)
      /\ (absent dto "Country" -> Obj.Location_country location = VNone)
      /\ amenities = Obj.default_Amenities
      /\ images = Obj.default_Images
      /\ Obj.Hotel_booking_conditions h = VList []
  | SPatagonia =>
      (absent dto "info" -> Obj.Hotel_description h = VStr "")
      /\ (absent dto "lat" -> Obj.Location_lat location = VNone)
      /\ (absent dto "lng" -> Obj.Location_lng location = VNone)
      /\ (absent dto "address" -> Obj.Location_address location = VNone)
      /\ (absent (sub_dict dto "images") "rooms" -> Obj.Images_rooms images = [])
      /\ (absent (sub_dict dto "images") "amenities" ->
          Obj.Images_amenities images = [])
      /\ Obj.Location_city location = VNone
      /\ Obj.Location_country location = VNone
      /\ Obj.Images_site images = []
      /\ amenities = Obj.default_Amenities
      /\ Obj.Hotel_booking_conditions h = VList []
  | SPaperflies =>
      (absent dto "details" -> Obj.Hotel_description h = VStr "")
      /\ (absent (sub_dict dto "location") "address" ->
          Obj.Location_address location = VNone)
      /\ (absent (sub_dict dto "location") "country" ->
          Obj.Location_country location = VNone)
      /\ (absent (sub_dict dto "amenities") "general" ->
          Obj.Amenities_general amenities = [])
      /\ (absent (sub_dict dto "amenities") "room" ->
          Obj.Amenities_room amenities = [])
      /\ (absent (sub_dict dto "images") "rooms" -> Obj.Images_rooms images = [])
      /\ (absent (sub_dict dto "images") "site" -> Obj.Images_site images = [])
      /\ (absent dto "booking_conditions" ->
          Obj.Hotel_booking_conditions h = VList [])
      /\ Obj.Location_lat location = VNone
      /\ Obj.Location_lng location = VNone
      /\ Obj.Location_city location = VNone
      /\ Obj.Images_amenities images = []
  end.

(** A supplier record with empty collections, for concrete runs. *)
Definition plain_hotel (id source : string) (location : Location)
    (description : string) (images : Images) : Hotel :=
  {| Hotel_id := id;
     Hotel_source := Some source;
     Hotel_destination_id := 5;
     Hotel_name := "H1";
     Hotel_location := Some location;
     Hotel_description := description;
     Hotel_amenities := {| Amenities_general := []; Amenities_room := [] |};
     Hotel_images := images;
     Hotel_booking_conditions := [] |}.

Definition no_location : Location :=
  {| Location_lat := None; Location_lng := None; Location_address := None;
     Location_city := None; Location_country := None |}.

Definition no_images : Images :=
  {| Images_rooms := []; Images_site := []; Images_amenities := [] |}.

Definition located (lat : option float) (country : option string) : Location :=
  {| Location_lat := lat; Location_lng := None; Location_address := None;
     Location_city := None; Location_country := country |}.

Definition image_xy : Image := {| Image_link := "x"; Image_description := "y" |}.

Definition gallery_xy : Images :=
  {| Images_rooms := [image_xy]; Images_site := [];
     Images_amenities := [image_xy] |}.

(** A hotel on the equator and a second record of it with another
    latitude. *)
Definition equator_hotel : Hotel :=
  plain_hotel "1" "Acme" (located (Some 0%float) None) "" no_images.

Definition moved_hotel : Hotel :=
  plain_hotel "1" "Patagonia" (located (Some 1.5%float) None) "" no_images.

(** Two records of one hotel that differ in their description. *)
Definition described_x : Hotel := plain_hotel "1" "Acme" no_location "x" no_images.
Definition described_y : Hotel :=
  plain_hotel "1" "Patagonia" no_location "y" no_images.

(** Two records of one hotel, the second from Paperflies. *)
Definition country_A : Hotel :=
  plain_hotel "1" "Acme" (located None (Some "A")) "" no_images.
Definition country_B : Hotel :=
  plain_hotel "1" "Paperflies" (located None (Some "B")) "" no_images.

(** A record with one image in its rooms and amenities galleries. *)
Definition pictured : Hotel := plain_hotel "1" "Patagonia" no_location "" gallery_xy.

(** A merged collection of two hotels. *)
Definition two_hotels : list (string * Hotel) :=
  [("1", plain_hotel "1" "Acme" no_location "" no_images);
   ("2", plain_hotel "2" "Acme" no_location "" no_images)].

(** A Patagonia record with its required fields and nothing else. *)
Definition patagonia_required_only : dict :=
  [("id", VStr "1"); ("destination", VInt 5); ("name", VStr "H1")].

(** The same with an empty [images] object. *)
Definition patagonia_minimal : dict :=
  patagonia_required_only ++ [("images", VDict [])].

(** The scenario of the specification: one supplier knows the latitude,
    Paperflies knows the country. *)
Definition patagonia_record : dict :=
  [("id", VStr "1"); ("destination", VInt 5); ("name", VStr "H1");
   ("lat", VFloat 1%float); ("images", VDict [])].

Definition paperflies_record : dict :=
  [("hotel_id", VStr "1"); ("destination_id", VInt 5); ("hotel_name", VStr "H1");
   ("location", VDict [("country", VStr "CountryX")]); ("images", VDict [])].

(** An Acme record with its required fields and nothing else. *)
Definition acme_required_only : dict :=
  [("Id", VStr "1"); ("DestinationId", VInt 5); ("Name", VStr "H1")].

(** [BaseSupplier.fetch] from what [resp.json()] holds on:
    [[self.parse(dto) for dto in resp.json()]]. *)
Definition fetch (s : supplier) (response : list dict) : outcome (list Obj.Hotel) :=
  traverse (parse_of s) response.

(** [arg.split(",")]: the pieces between the commas, empty ones included. *)
Fixpoint split_comma (arg : string) : list string :=
  match arg with
  | EmptyString => [EmptyString]
  | String c rest =>
      if Ascii.eqb c "," then EmptyString :: split_comma rest
      else match split_comma rest with
           | [] => [String c EmptyString]
           | piece :: pieces => String c piece :: pieces
           end
  end.

(** [hotel_ids.split(",") if hotel_ids != "none" else None] in
    [fetch_hotels]. *)
Definition hotel_ids_of_arg (arg : string) : option (list string) :=
  if String.eqb arg "none" then None else Some (split_comma arg).

(** The keys of a dict after assigning [ids] one by one: a key is added
    where its id is first seen. *)
Definition first_seen (keys ids : list string) : list string :=
  fold_left (fun ks k => if in_dec string_dec k ks then ks else ks ++ [k])
            ids keys.

(** The string is empty or begins with a character that is no space. *)
Definition starts_clean (s : string) : Prop :=
  match s with
  | EmptyString => True
  | String c _ => is_space c = false
  end.

(** One entry per id, each hotel under its own id. *)
Definition store_ok (hotels : list (string * Hotel)) : Prop :=
  NoDup (map fst hotels) /\ forall k h, In (k, h) hotels -> Hotel_id h = k.

(** Two records of one hotel with amenities, images and conditions. *)
Definition spa_hotel : Hotel :=
  {| Hotel_id := "1";
     Hotel_source := Some "Acme";
     Hotel_destination_id := 5;
     Hotel_name := "H1";
     Hotel_location := Some (located (Some 1.5%float) (Some "A"));
     Hotel_description := "by the sea";
     Hotel_amenities :=
       {| Amenities_general := ["pool"; "wifi"]; Amenities_room := ["tv"] |};
     Hotel_images := gallery_xy;
     Hotel_booking_conditions := ["no pets"] |}.

Definition bar_hotel : Hotel :=
  {| Hotel_id := "1";
     Hotel_source := Some "Patagonia";
     Hotel_destination_id := 7;
     Hotel_name := "Hotel One";
     Hotel_location := Some (located (Some 2.5%float) (Some "C"));
     Hotel_description := "in town";
     Hotel_amenities :=
       {| Amenities_general := ["pool"; "bar"]; Amenities_room := ["tv"; "tub"] |};
     Hotel_images :=
       {| Images_rooms :=
            [image_xy; {| Image_link := "z"; Image_description := "y" |}];
          Images_site := [];
          Images_amenities := [] |};
     Hotel_booking_conditions := ["no pets"; "pay on arrival"] |}.

Definition three_records : list Hotel :=
  [spa_hotel; plain_hotel "2" "Acme" no_location "" no_images; bar_hotel].

(** [list(set(xs))] read off as the last occurrence of each element: one
    order among those an interpreter may produce. *)
Definition nodup_order : SetOrder :=
  {| set_list := nodup string_dec;
     set_list_NoDup := NoDup_nodup string_dec;
     set_list_In := nodup_In string_dec |}.

(** * Properties *)

(** ** Image galleries keyed by (link, description) *)

Lemma key_eqb_image_key (a b : Image) :
  key_eqb (image_key a) (image_key b) = true <-> a = b.
Proof.
  destruct a as [la da], b as [lb db]. unfold key_eqb, image_key. simpl.
  rewrite andb_true_iff, !String.eqb_eq. split.
  - intros [-> ->]. reflexivity.
  - intros H. inversion H. auto.
Qed.

Lemma dict_set_keyed (vs : list Image) (x : Image) :
  dict_set key_eqb (keyed vs) (image_key x) x = keyed (add_new vs x).
Proof.
  unfold add_new. induction vs as [|v vs IH]; simpl.
  - reflexivity.
  - destruct (key_eqb (image_key x) (image_key v)) eqn:E.
    + apply key_eqb_image_key in E. subst v.
      destruct (Image_eq_dec x x) as [e|N]; [reflexivity | contradiction].
    + assert (v <> x) as N.
      { intros ->. assert (key_eqb (image_key x) (image_key x) = true) as T
          by (apply key_eqb_image_key; reflexivity). congruence. }
      destruct (Image_eq_dec v x) as [e|n]; [contradiction|].
      rewrite IH. destruct (in_dec Image_eq_dec x vs); reflexivity.
Qed.

Lemma dict_of_keyed (xs vs : list Image) :
  fold_left (fun d x => dict_set key_eqb d (image_key x) x) xs (keyed vs)
  = keyed (fold_left add_new xs vs).
Proof.
  revert vs. induction xs as [|x xs IH]; intros vs; simpl.
  - reflexivity.
  - rewrite dict_set_keyed. apply IH.
Qed.

Lemma dedup_images_fold (xs : list Image) :
  dedup_images xs = fold_left add_new xs [].
Proof.
  unfold dedup_images, dict_of, dict_values.
  change (@nil (string * string * Image)) with (keyed []).
  rewrite dict_of_keyed. unfold keyed. rewrite map_map. simpl. apply map_id.
Qed.

Lemma add_new_In (vs : list Image) (x y : Image) :
  In y (add_new vs x) <-> In y vs \/ y = x.
Proof.
  unfold add_new. destruct (in_dec Image_eq_dec x vs) as [i|n].
  - split; [auto|]. intros [H| ->]; assumption.
  - rewrite in_app_iff. simpl. intuition.
Qed.

Lemma add_new_NoDup (vs : list Image) (x : Image) :
  NoDup vs -> NoDup (add_new vs x).
Proof.
  unfold add_new. intros H. destruct (in_dec Image_eq_dec x vs) as [i|n].
  - assumption.
  - apply NoDup_app; [assumption | repeat constructor; simpl; tauto |].
    intros a Ha [E|[]]. subst a. contradiction.
Qed.

Lemma fold_add_new_In (xs vs : list Image) (y : Image) :
  In y (fold_left add_new xs vs) <-> In y vs \/ In y xs.
Proof.
  revert vs. induction xs as [|x xs IH]; intros vs; simpl.
  - tauto.
  - rewrite IH, add_new_In. intuition.
Qed.

Lemma fold_add_new_NoDup (xs vs : list Image) :
  NoDup vs -> NoDup (fold_left add_new xs vs).
Proof.
  revert vs. induction xs as [|x xs IH]; intros vs H; simpl.
  - assumption.
  - apply IH, add_new_NoDup, H.
Qed.

Lemma fold_add_new_known (xs vs : list Image) :
  (forall x, In x xs -> In x vs) -> fold_left add_new xs vs = vs.
Proof.
  revert vs. induction xs as [|x xs IH]; intros vs H; simpl.
  - reflexivity.
  - unfold add_new at 2. destruct (in_dec Image_eq_dec x vs) as [i|n].
    + apply IH. intros y Hy. apply H. right. assumption.
    + exfalso. apply n, H. left. reflexivity.
Qed.

Lemma fold_add_new_fresh (xs vs : list Image) :
  NoDup (vs ++ xs) -> fold_left add_new xs vs = vs ++ xs.
Proof.
  revert vs. induction xs as [|x xs IH]; intros vs H; simpl.
  - symmetry. apply app_nil_r.
  - unfold add_new at 2. destruct (in_dec Image_eq_dec x vs) as [i|n].
    + exfalso. apply NoDup_remove_2 in H. apply H, in_or_app. left. assumption.
    + replace (vs ++ x :: xs) with ((vs ++ [x]) ++ xs) in *
        by (rewrite <- app_assoc; reflexivity).
      apply IH, H.
Qed.

Lemma dedup_images_In (xs : list Image) (y : Image) :
  In y (dedup_images xs) <-> In y xs.
Proof. rewrite dedup_images_fold, fold_add_new_In. simpl. tauto. Qed.

Lemma dedup_images_NoDup (xs : list Image) : NoDup (dedup_images xs).
Proof. rewrite dedup_images_fold. apply fold_add_new_NoDup. constructor. Qed.

Lemma dedup_images_twice (xs : list Image) :
  dedup_images (xs ++ xs) = dedup_images xs.
Proof.
  rewrite !dedup_images_fold, fold_left_app.
  apply fold_add_new_known. intros x Hx.
  apply fold_add_new_In. right. assumption.
Qed.

Lemma dedup_images_id (xs : list Image) : NoDup xs -> dedup_images xs = xs.
Proof.
  intros H. rewrite dedup_images_fold. apply (fold_add_new_fresh xs []). exact H.
Qed.

(** ** Field-level reconciliation *)

Lemma fill_in_keeps {A : Type} (truthy : A -> bool) (x y : A) :
  truthy x = true -> fill_in truthy x y = x.
Proof. unfold fill_in. intros ->. reflexivity. Qed.

Lemma fill_in_same {A : Type} (truthy : A -> bool) (x : A) :
  fill_in truthy x x = x.
Proof. unfold fill_in. destruct (negb (truthy x) && truthy x); reflexivity. Qed.

Lemma fill_in_comm {A : Type} (truthy : A -> bool) (x y : A) :
  truthy x <> truthy y \/ x = y -> fill_in truthy x y = fill_in truthy y x.
Proof.
  unfold fill_in. intros [N | ->]; [|reflexivity].
  destruct (truthy x), (truthy y); simpl; congruence.
Qed.

Lemma truthy_str_Some (s : string) : s <> "" -> truthy_str (Some s) = true.
Proof.
  intros N. simpl. destruct (String.eqb s "") eqn:E; [|reflexivity].
  apply String.eqb_eq in E. contradiction.
Qed.

Lemma merge_country_same (c source : option string) :
  source <> None -> merge_country c c source = Return c.
Proof.
  unfold merge_country. intros N. rewrite fill_in_same.
  destruct (truthy_str c); [|reflexivity].
  destruct source as [s|]; [|contradiction].
  destruct (String.eqb s "Paperflies"); reflexivity.
Qed.

Lemma merge_country_returns (b i : option string) (s : string) :
  exists c, merge_country b i (Some s) = Return c.
Proof.
  unfold merge_country.
  destruct (truthy_str i); [destruct (String.eqb s "Paperflies")|]; eauto.
Qed.

Lemma merge_location_same (l : Location) (source : option string) :
  source <> None -> merge_location l l source = Return l.
Proof.
  intros N. unfold merge_location. rewrite merge_country_same by assumption.
  simpl. rewrite !fill_in_same. destruct l; reflexivity.
Qed.

Lemma merge_location_returns (bl il : Location) (s : string) :
  exists l, merge_location bl il (Some s) = Return l
    /\ Location_lat l = fill_in truthy_float (Location_lat bl) (Location_lat il)
    /\ Location_lng l = fill_in truthy_float (Location_lng bl) (Location_lng il)
    /\ Location_address l
       = fill_in truthy_str (Location_address bl) (Location_address il)
    /\ Location_city l = fill_in truthy_str (Location_city bl) (Location_city il)
    /\ merge_country (Location_country bl) (Location_country il) (Some s)
       = Return (Location_country l).
Proof.
  unfold merge_location.
  destruct (merge_country_returns (Location_country bl) (Location_country il) s)
    as [c Hc].
  rewrite Hc. simpl. eexists. repeat split.
Qed.

Section MergeProperties.
Context {set_order : SetOrder}.

(** Every attribute of the result but the location, read off the code. *)
Lemma _merge_fields (base incoming r : Hotel) :
  _merge base incoming = Return r ->
  Hotel_id r = Hotel_id base
  /\ Hotel_source r = None
  /\ Hotel_destination_id r = Hotel_destination_id base
  /\ Hotel_name r = Hotel_name base
  /\ Hotel_description r
     = (if negb (String.eqb (Hotel_description base) "")
        then Hotel_description base else Hotel_description incoming)
  /\ Amenities_general (Hotel_amenities r)
     = set_list (Amenities_general (Hotel_amenities base)
                 ++ Amenities_general (Hotel_amenities incoming))
  /\ Amenities_room (Hotel_amenities r)
     = set_list (Amenities_room (Hotel_amenities base)
                 ++ Amenities_room (Hotel_amenities incoming))
  /\ Images_rooms (Hotel_images r)
     = dedup_images (Images_rooms (Hotel_images base)
                     ++ Images_rooms (Hotel_images incoming))
  /\ Images_site (Hotel_images r)
     = dedup_images (Images_site (Hotel_images base)
                     ++ Images_site (Hotel_images incoming))
  /\ Images_amenities (Hotel_images r)
     = Images_amenities (Hotel_images base)
       ++ Images_amenities (Hotel_images incoming)
  /\ Hotel_booking_conditions r
     = set_list (Hotel_booking_conditions base
                 ++ Hotel_booking_conditions incoming).
Proof.
  unfold _merge. intros H.
  match type of H with bind ?c _ = _ => destruct c as [location|e] end;
    simpl in H; [|discriminate].
  injection H as <-. simpl. repeat split.
Qed.

(** Merging two records that both have a location returns, and the
    location is merged field by field. *)
Lemma _merge_located (base incoming : Hotel) (bl il : Location) (s : string) :
  Hotel_location base = Some bl ->
  Hotel_location incoming = Some il ->
  Hotel_source incoming = Some s ->
  exists r l, _merge base incoming = Return r
    /\ Hotel_location r = Some l
    /\ merge_location bl il (Some s) = Return l.
Proof.
  intros Hb Hi Hs. unfold _merge. rewrite Hb, Hi, Hs.
  destruct (merge_location_returns bl il s) as [l [Hl _]].
  rewrite Hl. simpl. eexists. exists l. repeat split.
Qed.

(** A supplier record can always be merged into a stored one. *)
Lemma _merge_returns (base incoming : Hotel) (s : string) :
  Hotel_source incoming = Some s -> exists r, _merge base incoming = Return r.
Proof.
  intros Hs. unfold _merge. rewrite Hs.
  destruct (Hotel_location base) as [bl|], (Hotel_location incoming) as [il|];
    simpl; eauto.
  destruct (merge_location_returns bl il s) as [l [Hl _]].
  rewrite Hl. simpl. eauto.
Qed.

Lemma set_list_Permutation (xs ys : list string) :
  (forall x, In x xs <-> In x ys) -> Permutation (set_list xs) (set_list ys).
Proof.
  intros H. apply NoDup_Permutation; try apply set_list_NoDup.
  intros x. rewrite !set_list_In. apply H.
Qed.

Lemma dedup_images_Permutation (xs ys : list Image) :
  (forall x, In x xs <-> In x ys) -> Permutation (dedup_images xs) (dedup_images ys).
Proof.
  intros H. apply NoDup_Permutation; try apply dedup_images_NoDup.
  intros x. rewrite !dedup_images_In. apply H.
Qed.

Lemma In_app_comm {A : Type} (xs ys : list A) (x : A) :
  In x (xs ++ ys) <-> In x (ys ++ xs).
Proof. rewrite !in_app_iff. tauto. Qed.

Lemma In_app_twice {A : Type} (xs : list A) (x : A) :
  In x (xs ++ xs) <-> In x xs.
Proof. rewrite in_app_iff. tauto. Qed.

(** ** The merge engine *)

Lemma dict_get_set_same (d : hotels_dict) (k : string) (v : Hotel) :
  dict_get String.eqb (dict_set String.eqb d k v) k = Some v.
Proof.
  induction d as [|[k0 v0] d IH]; simpl.
  - rewrite String.eqb_refl. reflexivity.
  - destruct (String.eqb k k0) eqn:E; simpl; rewrite E; [reflexivity | exact IH].
Qed.

Lemma dict_get_set_other (d : hotels_dict) (k k' : string) (v : Hotel) :
  k' <> k ->
  dict_get String.eqb (dict_set String.eqb d k' v) k = dict_get String.eqb d k.
Proof.
  intros N. induction d as [|[k0 v0] d IH]; simpl.
  - destruct (String.eqb k k') eqn:E; [|reflexivity].
    apply String.eqb_eq in E. congruence.
  - destruct (String.eqb k' k0) eqn:E'; simpl.
    + apply String.eqb_eq in E'. subst k0.
      destruct (String.eqb k k') eqn:E; [|reflexivity].
      apply String.eqb_eq in E. congruence.
    + destruct (String.eqb k k0); [reflexivity | exact IH].
Qed.

Lemma merge_and_save_app (hotels : hotels_dict) (xs ys : list Hotel) :
  merge_and_save hotels (xs ++ ys)
  = (hotels' <- merge_and_save hotels xs ;; merge_and_save hotels' ys).
Proof.
  revert hotels. induction xs as [|x xs IH]; intros hotels; simpl.
  - reflexivity.
  - destruct (dict_get String.eqb hotels (Hotel_id x)) as [base|].
    + destruct (_merge base x) as [merged|e]; simpl; [apply IH | reflexivity].
    + apply IH.
Qed.

(** Records of other hotels leave the entry of a hotel alone. *)
Lemma merge_and_save_untouched (data : list Hotel) (hotels hotels' : hotels_dict)
    (k : string) :
  (forall x, In x data -> Hotel_id x <> k) ->
  merge_and_save hotels data = Return hotels' ->
  dict_get String.eqb hotels' k = dict_get String.eqb hotels k.
Proof.
  revert hotels. induction data as [|x data IH]; intros hotels Hk H; simpl in H.
  - injection H as <-. reflexivity.
  - assert (Hotel_id x <> k) as Nx by (apply Hk; left; reflexivity).
    assert (forall y, In y data -> Hotel_id y <> k) as Hk'
      by (intros y Hy; apply Hk; right; exact Hy).
    destruct (dict_get String.eqb hotels (Hotel_id x)) as [base|].
    + destruct (_merge base x) as [merged|e]; simpl in H; [|discriminate].
      rewrite (IH _ Hk' H). apply dict_get_set_other, Nx.
    + rewrite (IH _ Hk' H). apply dict_get_set_other, Nx.
Qed.

Lemma merge_and_save_single (h : Hotel) :
  merge_and_save [] [h] = Return [(Hotel_id h, h)].
Proof. reflexivity. Qed.

(** C2 (the code as it runs): a record [h] whose id occurs once in the
    input, wherever it stands, is stored as it came: after [merge_and_save]
    the hotel under its id is [h] itself, [source] included. *)
Theorem merge_and_save_keeps_single (before after : list Hotel) (h : Hotel)
    (hotels' : hotels_dict) :
  (forall x, In x (before ++ after) -> Hotel_id x <> Hotel_id h) ->
  merge_and_save [] (before ++ h :: after) = Return hotels' ->
  dict_get String.eqb hotels' (Hotel_id h) = Some h.
Proof.
  intros Hother H. rewrite merge_and_save_app in H.
  destruct (merge_and_save [] before) as [hotels1|e] eqn:E1;
    simpl in H; [|discriminate].
  assert (dict_get String.eqb hotels1 (Hotel_id h) = None) as Hnew.
  { rewrite (merge_and_save_untouched before [] hotels1 (Hotel_id h)).
    - reflexivity.
    - intros x Hx. apply Hother, in_or_app. left. exact Hx.
    - exact E1. }
  rewrite Hnew in H.
  rewrite (merge_and_save_untouched after
             (dict_set String.eqb hotels1 (Hotel_id h) h) hotels' (Hotel_id h)).
  - apply dict_get_set_same.
  - intros x Hx. apply Hother, in_or_app. right. exact Hx.
  - exact H.
Qed.

(** C3 (amended): merging a copy of a supplier record [h] into [h] returns
    an entity with [h]'s id, destination, name, location and description;
    the three set fields hold the elements of [h]'s, each once; the rooms
    and site galleries are [h]'s with repeated (link, description) pairs
    dropped, so unchanged when [h] has none; but [source] is gone and the
    amenities gallery is [h]'s twice over. *)
Theorem merge_with_copy (h : Hotel) (s : string) :
  Hotel_source h = Some s ->
  exists r, _merge h h = Return r
    /\ Hotel_id r = Hotel_id h
    /\ Hotel_destination_id r = Hotel_destination_id h
    /\ Hotel_name r = Hotel_name h
    /\ Hotel_location r = Hotel_location h
    /\ Hotel_description r = Hotel_description h
    /\ Hotel_source r = None
    /\ (NoDup (Amenities_general (Hotel_amenities r))
        /\ forall x, In x (Amenities_general (Hotel_amenities r))
                     <-> In x (Amenities_general (Hotel_amenities h)))
    /\ (NoDup (Amenities_room (Hotel_amenities r))
        /\ forall x, In x (Amenities_room (Hotel_amenities r))
                     <-> In x (Amenities_room (Hotel_amenities h)))
    /\ (NoDup (Hotel_booking_conditions r)
        /\ forall x, In x (Hotel_booking_conditions r)
                     <-> In x (Hotel_booking_conditions h))
    /\ Images_rooms (Hotel_images r) = dedup_images (Images_rooms (Hotel_images h))
    /\ Images_site (Hotel_images r) = dedup_images (Images_site (Hotel_images h))
    /\ (NoDup (Images_rooms (Hotel_images h)) ->
        Images_rooms (Hotel_images r) = Images_rooms (Hotel_images h))
    /\ (NoDup (Images_site (Hotel_images h)) ->
        Images_site (Hotel_images r) = Images_site (Hotel_images h))
    /\ Images_amenities (Hotel_images r)
       = Images_amenities (Hotel_images h) ++ Images_amenities (Hotel_images h).
Proof.
  intros Hs. destruct (_merge_returns h h s Hs) as [r Hr]. exists r.
  destruct (_merge_fields h h r Hr)
    as (Hid & Hsrc & Hdest & Hname & Hdesc & Hgen & Hroom & Hrooms & Hsite
        & Ham & Hbook).
  assert (Hotel_location r = Hotel_location h) as Hloc.
  { revert Hr. unfold _merge. destruct (Hotel_location h) as [l|].
    - rewrite merge_location_same by (rewrite Hs; discriminate).
      simpl. intros H. injection H as <-. reflexivity.
    - simpl. intros H. injection H as <-. reflexivity. }
  rewrite dedup_images_twice in Hrooms, Hsite.
  repeat match goal with |- _ /\ _ => split end; try assumption.
  - rewrite Hdesc. destruct (negb (String.eqb (Hotel_description h) ""));
      reflexivity.
  - rewrite Hgen. apply set_list_NoDup.
  - intros x. rewrite Hgen, set_list_In. apply In_app_twice.
  - rewrite Hroom. apply set_list_NoDup.
  - intros x. rewrite Hroom, set_list_In. apply In_app_twice.
  - rewrite Hbook. apply set_list_NoDup.
  - intros x. rewrite Hbook, set_list_In. apply In_app_twice.
  - intros N. rewrite Hrooms. apply dedup_images_id, N.
  - intros N. rewrite Hsite. apply dedup_images_id, N.
Qed.

(** A latitude that counts as true is never changed. *)
Lemma merge_keeps_truthy_lat (base incoming r : Hotel) (bl : Location) :
  Hotel_location base = Some bl ->
  truthy_float (Location_lat bl) = true ->
  _merge base incoming = Return r ->
  exists l, Hotel_location r = Some l /\ Location_lat l = Location_lat bl.
Proof.
  intros Hb Ht. unfold _merge. rewrite Hb.
  destruct (Hotel_location incoming) as [il|]; simpl.
  - unfold merge_location.
    destruct (merge_country _ _ _) as [c|e]; simpl; [|discriminate].
    intros H. injection H as <-. simpl. eexists. split; [reflexivity|].
    simpl. apply fill_in_keeps, Ht.
  - intros H. injection H as <-. simpl. eauto.
Qed.

(** C4: two records with one id, [a] from a supplier other than
    Paperflies with country [A] and [b] from Paperflies with a country [B];
    whichever of the two [merge_and_save] sees first, the one stored hotel
    has country [B]. *)
Theorem paperflies_country_wins (a b : Hotel) (la lb : Location)
    (sa A B : string) (data : list Hotel) :
  Hotel_id a = Hotel_id b ->
  Hotel_source a = Some sa -> sa <> "Paperflies" ->
  Hotel_source b = Some "Paperflies" ->
  Hotel_location a = Some la -> Location_country la = Some A ->
  Hotel_location b = Some lb -> Location_country lb = Some B -> B <> "" ->
  data = [a; b] \/ data = [b; a] ->
  exists h l, merge_and_save [] data = Return [(Hotel_id a, h)]
    /\ Hotel_location h = Some l
    /\ Location_country l = Some B.
Proof.
  intros Hid Hsa Hna Hsb Hla HA Hlb HB HBne [-> | ->]; simpl.
  - rewrite <- Hid, String.eqb_refl.
    destruct (_merge_located a b la lb "Paperflies" Hla Hlb Hsb)
      as (r & l & Hr & Hl & Hm).
    rewrite Hr. simpl. exists r, l.
    repeat split; try assumption.
    destruct (merge_location_returns la lb "Paperflies")
      as (l' & Hl' & _ & _ & _ & _ & Hc).
    rewrite Hm in Hl'. injection Hl' as <-.
    unfold merge_country in Hc. rewrite HB, (truthy_str_Some B HBne) in Hc.
    simpl in Hc. injection Hc as Hc. symmetry. exact Hc.
  - rewrite Hid, String.eqb_refl.
    destruct (_merge_located b a lb la sa Hlb Hla Hsa)
      as (r & l & Hr & Hl & Hm).
    rewrite Hr. simpl. exists r, l.
    repeat split; try assumption.
    destruct (merge_location_returns lb la sa)
      as (l' & Hl' & _ & _ & _ & _ & Hc).
    rewrite Hm in Hl'. injection Hl' as <-.
    unfold merge_country in Hc. rewrite HB in Hc.
    rewrite (fill_in_keeps truthy_str (Some B) _ (truthy_str_Some B HBne)) in Hc.
    destruct (String.eqb sa "Paperflies") eqn:E.
    { apply String.eqb_eq in E. contradiction. }
    destruct (truthy_str (Location_country la));
      injection Hc as Hc; symmetry; exact Hc.
Qed.

(** C5 (amended): merging [b] into [a] and [a] into [b] give the same
    set fields and the same rooms, site and amenities galleries up to
    order; they agree on a fill-in field (description, lat, lng, address,
    city) when exactly one of the two records has a value there or both
    have the same one; otherwise each result keeps the value of its own
    base, as it does for the description, name and destination id. *)
Theorem merge_commutes_up_to_base (a b : Hotel) (la lb : Location)
    (sa sb : string) :
  Hotel_source a = Some sa -> Hotel_source b = Some sb ->
  Hotel_location a = Some la -> Hotel_location b = Some lb ->
  exists r1 r2 l1 l2,
    _merge a b = Return r1 /\ _merge b a = Return r2
    /\ Hotel_location r1 = Some l1 /\ Hotel_location r2 = Some l2
    /\ Permutation (Amenities_general (Hotel_amenities r1))
                   (Amenities_general (Hotel_amenities r2))
    /\ Permutation (Amenities_room (Hotel_amenities r1))
                   (Amenities_room (Hotel_amenities r2))
    /\ Permutation (Hotel_booking_conditions r1) (Hotel_booking_conditions r2)
    /\ Permutation (Images_rooms (Hotel_images r1)) (Images_rooms (Hotel_images r2))
    /\ Permutation (Images_site (Hotel_images r1)) (Images_site (Hotel_images r2))
    /\ Permutation (Images_amenities (Hotel_images r1))
                   (Images_amenities (Hotel_images r2))
    /\ (Hotel_description a = "" \/ Hotel_description b = ""
        \/ Hotel_description a = Hotel_description b ->
        Hotel_description r1 = Hotel_description r2)
    /\ (Hotel_description a <> "" -> Hotel_description r1 = Hotel_description a)
    /\ (Hotel_description b <> "" -> Hotel_description r2 = Hotel_description b)
    /\ (truthy_float (Location_lat la) <> truthy_float (Location_lat lb)
        \/ Location_lat la = Location_lat lb ->
        Location_lat l1 = Location_lat l2)
    /\ (truthy_float (Location_lng la) <> truthy_float (Location_lng lb)
        \/ Location_lng la = Location_lng lb ->
        Location_lng l1 = Location_lng l2)
    /\ (truthy_str (Location_address la) <> truthy_str (Location_address lb)
        \/ Location_address la = Location_address lb ->
        Location_address l1 = Location_address l2)
    /\ (truthy_str (Location_city la) <> truthy_str (Location_city lb)
        \/ Location_city la = Location_city lb ->
        Location_city l1 = Location_city l2)
    /\ Hotel_id r1 = Hotel_id a /\ Hotel_id r2 = Hotel_id b
    /\ Hotel_name r1 = Hotel_name a /\ Hotel_name r2 = Hotel_name b
    /\ Hotel_destination_id r1 = Hotel_destination_id a
    /\ Hotel_destination_id r2 = Hotel_destination_id b.
Proof.
  intros Hsa Hsb Hla Hlb.
  destruct (_merge_located a b la lb sb Hla Hlb Hsb) as (r1 & l1 & Hr1 & Hl1 & Hm1).
  destruct (_merge_located b a lb la sa Hlb Hla Hsa) as (r2 & l2 & Hr2 & Hl2 & Hm2).
  exists r1, r2, l1, l2.
  destruct (_merge_fields a b r1 Hr1)
    as (Hid1 & _ & Hdest1 & Hname1 & Hdesc1 & Hgen1 & Hroom1 & Hrooms1 & Hsite1
        & Ham1 & Hbook1).
  destruct (_merge_fields b a r2 Hr2)
    as (Hid2 & _ & Hdest2 & Hname2 & Hdesc2 & Hgen2 & Hroom2 & Hrooms2 & Hsite2
        & Ham2 & Hbook2).
  destruct (merge_location_returns la lb sb)
    as (l1' & Hl1' & Hlat1 & Hlng1 & Haddr1 & Hcity1 & _).
  rewrite Hm1 in Hl1'. injection Hl1' as <-.
  destruct (merge_location_returns lb la sa)
    as (l2' & Hl2' & Hlat2 & Hlng2 & Haddr2 & Hcity2 & _).
  rewrite Hm2 in Hl2'. injection Hl2' as <-.
  repeat match goal with |- _ /\ _ => split end; try assumption.
  - rewrite Hgen1, Hgen2. apply set_list_Permutation, In_app_comm.
  - rewrite Hroom1, Hroom2. apply set_list_Permutation, In_app_comm.
  - rewrite Hbook1, Hbook2. apply set_list_Permutation, In_app_comm.
  - rewrite Hrooms1, Hrooms2. apply dedup_images_Permutation, In_app_comm.
  - rewrite Hsite1, Hsite2. apply dedup_images_Permutation, In_app_comm.
  - rewrite Ham1, Ham2. apply Permutation_app_comm.
  - rewrite Hdesc1, Hdesc2. intros [E | [E | E]]; rewrite E; simpl.
    + destruct (negb (String.eqb (Hotel_description b) "")) eqn:N;
        [reflexivity|].
      apply negb_false_iff, String.eqb_eq in N. exact N.
    + destruct (negb (String.eqb (Hotel_description a) "")) eqn:N;
        [reflexivity|].
      apply negb_false_iff, String.eqb_eq in N. symmetry. exact N.
    + destruct (negb (String.eqb (Hotel_description b) "")); reflexivity.
  - intros N. rewrite Hdesc1. apply String.eqb_neq in N. rewrite N. reflexivity.
  - intros N. rewrite Hdesc2. apply String.eqb_neq in N. rewrite N. reflexivity.
  - intros H. rewrite Hlat1, Hlat2. apply fill_in_comm, H.
  - intros H. rewrite Hlng1, Hlng2. apply fill_in_comm, H.
  - intros H. rewrite Haddr1, Haddr2. apply fill_in_comm, H.
  - intros H. rewrite Hcity1, Hcity2. apply fill_in_comm, H.
Qed.

(** C7: when [Image(link=x, description=y)] is in the rooms gallery of
    both records, the merged rooms gallery holds it exactly once, while the
    merged amenities gallery is the first record's followed by the
    second's, duplicates and all. *)
Theorem merge_rooms_once_amenities_appended (a b : Hotel) (s x y : string) :
  Hotel_source b = Some s ->
  In {| Image_link := x; Image_description := y |} (Images_rooms (Hotel_images a)) ->
  In {| Image_link := x; Image_description := y |} (Images_rooms (Hotel_images b)) ->
  exists r, _merge a b = Return r
    /\ count_occ Image_eq_dec (Images_rooms (Hotel_images r))
                 {| Image_link := x; Image_description := y |} = 1
    /\ Images_amenities (Hotel_images r)
       = Images_amenities (Hotel_images a) ++ Images_amenities (Hotel_images b).
Proof.
  intros Hs Ha Hb. destruct (_merge_returns a b s Hs) as [r Hr]. exists r.
  destruct (_merge_fields a b r Hr)
    as (_ & _ & _ & _ & _ & _ & _ & Hrooms & _ & Ham & _).
  repeat split; try assumption.
  rewrite Hrooms.
  apply (proj1 (NoDup_count_occ' Image_eq_dec _) (dedup_images_NoDup _)).
  apply dedup_images_In, in_or_app. left. assumption.
Qed.

End MergeProperties.

(** ** Supplier adapters *)

Lemma getitem_present (d : dict) (k : string) (v : value) :
  lookup d k = Some v -> getitem d k = Return v.
Proof. unfold getitem, lookup. intros ->. reflexivity. Qed.

Lemma getitem_absent (d : dict) (k : string) :
  lookup d k = None -> getitem d k = Raise (KeyError k).
Proof. unfold getitem, lookup. intros ->. reflexivity. Qed.

Lemma get_absent (d : dict) (k : string) (default : value) :
  absent d k -> get d k default = default.
Proof. unfold absent, get, lookup. intros ->. reflexivity. Qed.

Lemma get_absent_or (p : value -> bool) (d : dict) (k : string) (default : value) :
  absent_or p d k = true -> p default = true -> p (get d k default) = true.
Proof.
  unfold absent_or, get, lookup.
  destruct (dict_get String.eqb d k); intros; assumption.
Qed.

Lemma first_missing_three (dto : dict) (k1 k2 k3 : string) :
  first_missing dto [k1; k2; k3] = None ->
  exists v1 v2 v3,
    lookup dto k1 = Some v1 /\ lookup dto k2 = Some v2 /\ lookup dto k3 = Some v3.
Proof.
  simpl. destruct (lookup dto k1) as [v1|]; [|discriminate].
  destruct (lookup dto k2) as [v2|]; [|discriminate].
  destruct (lookup dto k3) as [v3|]; [|discriminate].
  intros _. exists v1, v2, v3. auto.
Qed.

(** The first required key that is missing is the one the adapter trips
    on: the three subscripts come first and in this order. *)
Lemma required_first (dto : dict) (k1 k2 k3 k : string)
    (rest : value -> value -> value -> outcome Obj.Hotel) :
  first_missing dto [k1; k2; k3] = Some k ->
  (a <- getitem dto k1 ;; b <- getitem dto k2 ;; c <- getitem dto k3 ;; rest a b c)
  = Raise (KeyError k).
Proof.
  simpl. unfold getitem, lookup.
  destruct (dict_get String.eqb dto k1); simpl; [|congruence].
  destruct (dict_get String.eqb dto k2); simpl; [|congruence].
  destruct (dict_get String.eqb dto k3); simpl; [|congruence].
  discriminate.
Qed.

Lemma parse_images_shaped (k_link k_desc : string) (v : value) :
  is_image_list k_link k_desc v = true ->
  exists images, parse_images k_link k_desc v = Return images.
Proof.
  destruct v as [| | | | |l|]; try discriminate. simpl.
  unfold parse_images. simpl.
  induction l as [|image l IH]; simpl; intros H.
  - eauto.
  - apply andb_true_iff in H. destruct H as [Hi Hl].
    destruct image as [| | | | | |d]; try discriminate.
    simpl in Hi |- *. unfold getitem, lookup in *.
    destruct (dict_get String.eqb d k_link); [|discriminate].
    destruct (dict_get String.eqb d k_desc); [|discriminate].
    simpl. destruct (IH Hl) as [images ->]. simpl. eauto.
Qed.

Lemma parse_amenities_shaped (v : value) :
  is_str_list v = true -> exists l, parse_amenities v = Return l.
Proof.
  destruct v as [| | | | |l|]; try discriminate. simpl.
  unfold parse_amenities. simpl.
  induction l as [|x l IH]; simpl; intros H.
  - eauto.
  - apply andb_true_iff in H. destruct H as [Hx Hl].
    destruct x; try discriminate. simpl.
    destruct (IH Hl) as [l' ->]. simpl. eauto.
Qed.

Lemma is_image_list_get (k_link k_desc : string) (d : dict) (k : string) :
  absent_or (is_image_list k_link k_desc) d k = true ->
  exists images,
    parse_images k_link k_desc (get d k (VList [])) = Return images
    /\ (absent d k -> images = []).
Proof.
  intros H. unfold absent, absent_or, get, lookup in *.
  destruct (dict_get String.eqb d k) as [v|].
  - destruct (parse_images_shaped _ _ _ H) as [images Hi].
    exists images. split; [assumption | discriminate].
  - exists []. split; reflexivity.
Qed.

Lemma is_str_list_get (d : dict) (k : string) :
  absent_or is_str_list d k = true ->
  exists l,
    parse_amenities (get d k (VList [])) = Return l /\ (absent d k -> l = []).
Proof.
  intros H. unfold absent, absent_or, get, lookup in *.
  destruct (dict_get String.eqb d k) as [v|].
  - destruct (parse_amenities_shaped _ H) as [l Hl].
    exists l. split; [assumption | discriminate].
  - exists []. split; reflexivity.
Qed.

Lemma value_strip_get (d : dict) (k : string) :
  absent_or is_str d k = true ->
  exists s, get d k (VStr "") = VStr s
    /\ value_strip (get d k (VStr "")) = Return (strip s).
Proof.
  unfold absent_or, get, lookup.
  destruct (dict_get String.eqb d k) as [v|].
  - destruct v; try discriminate. intros _. eauto.
  - intros _. exists "". auto.
Qed.

Lemma get_is_dict (dto : dict) (k : string) :
  absent_or is_dict dto k = true ->
  get dto k (VDict []) = VDict (sub_dict dto k).
Proof.
  unfold absent_or, get, sub_dict, lookup.
  destruct (dict_get String.eqb dto k) as [v|]; [|reflexivity].
  destruct v; try discriminate. reflexivity.
Qed.

Lemma Acme_parse_returns (dto : dict) (id destination_id name : value)
    (a p : string) :
  lookup dto "Id" = Some id ->
  lookup dto "DestinationId" = Some destination_id ->
  lookup dto "Name" = Some name ->
  get dto "Address" (VStr "") = VStr a ->
  get dto "PostalCode" (VStr "") = VStr p ->
  exists h, Acme.parse dto = Return h
    /\ Obj.Location_address (Obj.Hotel_location h)
       = VStr (strip a ++ ", " ++ strip p)%string
    /\ optional_defaults SAcme dto h.
Proof.
  intros H1 H2 H3 Ha Hp. unfold Acme.parse.
  rewrite (getitem_present _ _ _ H1), (getitem_present _ _ _ H2),
    (getitem_present _ _ _ H3), Ha, Hp.
  simpl. eexists. split; [reflexivity|]. split; [reflexivity|].
  simpl. repeat split; intros Habs; apply get_absent; assumption.
Qed.

Lemma Acme_parse_inv (dto : dict) (h : Obj.Hotel) :
  Acme.parse dto = Return h ->
  exists a p,
    get dto "Address" (VStr "") = VStr a
    /\ get dto "PostalCode" (VStr "") = VStr p
    /\ Obj.Location_address (Obj.Hotel_location h)
       = VStr (strip a ++ ", " ++ strip p)%string.
Proof.
  unfold Acme.parse, getitem.
  destruct (dict_get String.eqb dto "Id"); [|discriminate].
  destruct (dict_get String.eqb dto "DestinationId"); [|discriminate].
  destruct (dict_get String.eqb dto "Name"); [|discriminate].
  simpl.
  destruct (get dto "Address" (VStr "")) as [| | | |a| |]; try discriminate.
  destruct (get dto "PostalCode" (VStr "")) as [| | | |p| |]; try discriminate.
  simpl. intros H. injection H as <-. exists a, p. auto.
Qed.

Lemma Patagonia_parse_returns (dto : dict) :
  first_missing dto (required_fields SPatagonia) = None ->
  well_shaped SPatagonia dto = true ->
  exists h, Patagonia.parse dto = Return h /\ optional_defaults SPatagonia dto h.
Proof.
  intros Hreq Hshape.
  destruct (first_missing_three _ _ _ _ Hreq) as (v1 & v2 & v3 & H1 & H2 & H3).
  simpl in Hshape.
  destruct (lookup dto "images") as [images|] eqn:Him; [|discriminate].
  destruct images as [| | | | | |images]; try discriminate.
  apply andb_true_iff in Hshape. destruct Hshape as [Hrooms Ham].
  destruct (is_image_list_get _ _ _ _ Hrooms) as (rooms & Er & Dr).
  destruct (is_image_list_get _ _ _ _ Ham) as (amenities & Ea & Da).
  unfold Patagonia.parse.
  rewrite (getitem_present _ _ _ H1), (getitem_present _ _ _ H2),
    (getitem_present _ _ _ H3), (getitem_present _ _ _ Him).
  simpl. rewrite Er. simpl. rewrite Ea. simpl.
  eexists. split; [reflexivity|].
  unfold optional_defaults, sub_dict. rewrite Him. simpl.
  repeat split; try assumption; intros Habs; apply get_absent; assumption.
Qed.

Lemma Paperflies_parse_returns (dto : dict) :
  first_missing dto (required_fields SPaperflies) = None ->
  well_shaped SPaperflies dto = true ->
  exists h, Paperflies.parse dto = Return h /\ optional_defaults SPaperflies dto h.
Proof.
  intros Hreq Hshape.
  destruct (first_missing_three _ _ _ _ Hreq) as (v1 & v2 & v3 & H1 & H2 & H3).
  simpl in Hshape.
  apply andb_true_iff in Hshape. destruct Hshape as [Hshape Himages].
  apply andb_true_iff in Hshape. destruct Hshape as [Hloc Ham].
  destruct (lookup dto "images") as [images|] eqn:Him; [|discriminate].
  destruct images as [| | | | | |images]; try discriminate.
  apply andb_true_iff in Himages. destruct Himages as [Hrooms Hsite].
  destruct (is_image_list_get _ _ _ _ Hrooms) as (rooms & Er & Dr).
  destruct (is_image_list_get _ _ _ _ Hsite) as (site & Es & Ds).
  assert (get dto "amenities" (VDict []) = VDict (sub_dict dto "amenities")
          /\ absent_or is_str_list (sub_dict dto "amenities") "general" = true
          /\ absent_or is_str_list (sub_dict dto "amenities") "room" = true)
    as (Eam & Hgen & Hroom).
  { unfold get, sub_dict, lookup in *.
    destruct (dict_get String.eqb dto "amenities") as [v|]; [|auto].
    destruct v; try discriminate.
    apply andb_true_iff in Ham. destruct Ham. auto. }
  destruct (is_str_list_get _ _ Hgen) as (general & Eg & Dg).
  destruct (is_str_list_get _ _ Hroom) as (room & Em & Dm).
  unfold Paperflies.parse.
  rewrite (getitem_present _ _ _ H1), (getitem_present _ _ _ H2),
    (getitem_present _ _ _ H3), (getitem_present _ _ _ Him),
    (get_is_dict _ _ Hloc), Eam.
  simpl. rewrite Eg. simpl. rewrite Em. simpl. rewrite Er. simpl.
  rewrite Es. simpl.
  eexists. split; [reflexivity|].
  assert (sub_dict dto "images" = images) as Eim
    by (unfold sub_dict; rewrite Him; reflexivity).
  unfold optional_defaults. rewrite Eim. simpl.
  repeat split; try assumption; intros Habs; apply get_absent; assumption.
Qed.

(** C8 (amended): each adapter raises [KeyError], naming the key, when
    one of its three required fields is missing; on a record whose present
    optional fields have the expected shape, and which has its [images]
    object where the adapter reads one, parsing raises exactly when a
    required field is missing, and otherwise returns an object in which
    every absent optional field has its default. *)
Theorem parse_required_and_defaults (s : supplier) (dto : dict) :
  (forall k, first_missing dto (required_fields s) = Some k ->
             parse_of s dto = Raise (KeyError k))
  /\ (well_shaped s dto = true ->
      (raises (parse_of s dto) = true
       <-> first_missing dto (required_fields s) <> None))
  /\ (well_shaped s dto = true ->
      first_missing dto (required_fields s) = None ->
      exists h, parse_of s dto = Return h /\ optional_defaults s dto h).
Proof.
  assert (forall k, first_missing dto (required_fields s) = Some k ->
                    parse_of s dto = Raise (KeyError k)) as Hmissing.
  { intros k. destruct s; simpl; apply required_first. }
  assert (well_shaped s dto = true ->
          first_missing dto (required_fields s) = None ->
          exists h, parse_of s dto = Return h /\ optional_defaults s dto h)
    as Hreturns.
  { intros Hshape Hreq. destruct s.
    - destruct (first_missing_three _ _ _ _ Hreq) as (v1 & v2 & v3 & H1 & H2 & H3).
      simpl in Hshape. apply andb_true_iff in Hshape. destruct Hshape as [Ha Hp].
      destruct (value_strip_get _ _ Ha) as (a & Ea & _).
      destruct (value_strip_get _ _ Hp) as (p & Ep & _).
      destruct (Acme_parse_returns dto v1 v2 v3 a p H1 H2 H3 Ea Ep)
        as (h & Hh & _ & Hd).
      exists h. auto.
    - apply Patagonia_parse_returns; assumption.
    - apply Paperflies_parse_returns; assumption. }
  repeat split; try assumption.
  - intros Hraise Hnone. destruct (Hreturns H Hnone) as (h & Hh & _).
    rewrite Hh in Hraise. discriminate.
  - intros Hsome.
    destruct (first_missing dto (required_fields s)) as [k|] eqn:E;
      [|contradiction].
    rewrite (Hmissing k eq_refl). reflexivity.
Qed.

(** C10 (amended): on an Acme record that has the required fields and
    whose [Address] and [PostalCode] are each a string or absent,
    [Acme.parse] returns, and [location.address] is the trimmed [Address],
    a comma and a space, and the trimmed [PostalCode] (an absent field read
    as the empty string); so it is never [None], and when both are absent
    it is [", "]. *)
Theorem Acme_address_joined (dto : dict) :
  first_missing dto (required_fields SAcme) = None ->
  well_shaped SAcme dto = true ->
  exists h a p,
    Acme.parse dto = Return h
    /\ get dto "Address" (VStr "") = VStr a
    /\ get dto "PostalCode" (VStr "") = VStr p
    /\ Obj.Location_address (Obj.Hotel_location h)
       = VStr (strip a ++ ", " ++ strip p)%string
    /\ Obj.Location_address (Obj.Hotel_location h) <> VNone
    /\ (absent dto "Address" -> absent dto "PostalCode" ->
        Obj.Location_address (Obj.Hotel_location h) = VStr ", ").
Proof.
  intros Hreq Hshape.
  destruct (first_missing_three _ _ _ _ Hreq) as (v1 & v2 & v3 & H1 & H2 & H3).
  simpl in Hshape. apply andb_true_iff in Hshape. destruct Hshape as [Ha Hp].
  destruct (value_strip_get _ _ Ha) as (a & Ea & _).
  destruct (value_strip_get _ _ Hp) as (p & Ep & _).
  destruct (Acme_parse_returns dto v1 v2 v3 a p H1 H2 H3 Ea Ep) as (h & Hh & E & _).
  exists h, a, p. repeat split; try assumption.
  - rewrite E. discriminate.
  - intros Aa Ap. rewrite E.
    rewrite (get_absent _ _ _ Aa) in Ea. rewrite (get_absent _ _ _ Ap) in Ep.
    injection Ea as <-. injection Ep as <-. reflexivity.
Qed.

(** ** The query layer *)

(** C1 (the code as it runs): with both filters [None] none of the three
    tests passes and [len(hotel_ids)] raises [TypeError], whatever the
    collection. *)
Theorem find_without_filters_raises (hotels : list (string * Hotel)) :
  find hotels None None = Raise TypeError.
Proof. reflexivity. Qed.

(** What [find] does with both filters: each position looks at the first
    stored hotel only; a match is collected and the next position follows, a
    mismatch returns what was collected, and running out of positions returns
    [None]. *)
Lemma find_both_filters (hotels : list (string * Hotel)) (ids : list string)
    (ds : list Z) :
  find hotels (Some ids) (Some ds)
  = find_loop (dict_values hotels) (Some ds) 0 ids [].
Proof. reflexivity. Qed.

Lemma find_loop_first_only (h0 : Hotel) (rest : list Hotel) (ds : list Z)
    (ids : list string) :
  forall (i : nat) (results l : list Hotel),
    (forall x, In x results -> x = h0) ->
    find_loop (h0 :: rest) (Some ds) i ids results = Return (Some l) ->
    forall x, In x l -> x = h0.
Proof.
  induction ids as [|id ids IH]; intros i results l Hres H; simpl in H.
  - discriminate.
  - destruct (position_match h0 id (nth_error ds i)).
    + apply (IH (S i) (results ++ [h0]) l); [|exact H].
      intros x Hx. apply in_app_or in Hx. destruct Hx as [Hx|[Hx|[]]]; auto.
    + injection H as <-. exact Hres.
Qed.

(** With both filters no hotel but the first stored one is ever returned. *)
Lemma find_returns_first_hotel_only (k : string) (h0 : Hotel)
    (hotels : list (string * Hotel)) (ids : list string) (ds : list Z)
    (l : list Hotel) :
  find ((k, h0) :: hotels) (Some ids) (Some ds) = Return (Some l) ->
  forall x, In x l -> x = h0.
Proof.
  rewrite find_both_filters. simpl dict_values.
  apply find_loop_first_only. intros x [].
Qed.

(** C9 (the code as it runs): on a collection of hotels "1" and "2", both
    of destination 5, asking for hotel "2" in destination 5 returns the empty
    list, and asking for hotel "1" in destination 5 returns [None]. *)
Theorem find_both_filters_runs :
  find two_hotels (Some ["2"]) (Some [5%Z]) = Return (Some [])
  /\ find two_hotels (Some ["1"]) (Some [5%Z]) = Return None.
Proof. split; reflexivity. Qed.

Lemma find_first_hotel_mismatch (k : string) (h : Hotel)
    (hotels : list (string * Hotel)) (id : string) (ids : list string)
    (ds : list Z) :
  position_match h id (nth_error ds 0) = false ->
  find ((k, h) :: hotels) (Some (id :: ids)) (Some ds) = Return (Some []).
Proof.
  intros H. rewrite find_both_filters.
  cbn [dict_values map snd find_loop find_inner]. rewrite H. reflexivity.
Qed.

(** ** Concrete runs *)

Lemma merge_and_save_keeps_single_witness :
  exists hotels',
    @merge_and_save nodup_order []
      [country_A; plain_hotel "2" "Acme" no_location "" no_images; country_B]
    = Return hotels'
    /\ dict_get String.eqb hotels' "2"
       = Some (plain_hotel "2" "Acme" no_location "" no_images)
    /\ Hotel_source (plain_hotel "2" "Acme" no_location "" no_images)
       = Some "Acme".
Proof.
  eexists. split; [reflexivity|]. split; [|reflexivity].
  apply (@merge_and_save_keeps_single nodup_order [country_A] [country_B]
           (plain_hotel "2" "Acme" no_location "" no_images)).
  - simpl. intros x [<-|[<-|[]]]; discriminate.
  - reflexivity.
Defined.

Lemma merge_with_copy_witness :
  exists r, @_merge nodup_order pictured pictured = Return r
    /\ Hotel_location r = Hotel_location pictured
    /\ Hotel_source r = None
    /\ Images_rooms (Hotel_images r) = [image_xy]
    /\ Images_amenities (Hotel_images r) = [image_xy; image_xy].
Proof.
  destruct (@merge_with_copy nodup_order pictured "Patagonia" eq_refl)
    as (r & Hr & _ & _ & _ & Hloc & _ & Hsrc & _ & _ & _ & Hrooms & _ & _ & _ & Ham).
  exists r. repeat split; assumption.
Defined.

(** C3 (as stated) fails: merging a copy of [pictured] into it returns an
    entity whose amenities gallery has two images where [pictured] has one. *)
Lemma merge_with_copy_differs :
  exists r, @_merge nodup_order pictured pictured = Return r
    /\ Images_amenities (Hotel_images pictured) = [image_xy]
    /\ Images_amenities (Hotel_images r) = [image_xy; image_xy]
    /\ r <> pictured.
Proof.
  eexists. split; [reflexivity|]. repeat split. discriminate.
Qed.

Lemma paperflies_country_wins_witness :
  (exists h l,
     @merge_and_save nodup_order [] [country_A; country_B] = Return [("1", h)]
     /\ Hotel_location h = Some l /\ Location_country l = Some "B")
  /\ (exists h l,
        @merge_and_save nodup_order [] [country_B; country_A] = Return [("1", h)]
        /\ Hotel_location h = Some l /\ Location_country l = Some "B").
Proof.
  split.
  - apply (@paperflies_country_wins nodup_order country_A country_B
             (located None (Some "A")) (located None (Some "B")) "Acme" "A" "B");
      try reflexivity; try discriminate. left. reflexivity.
  - apply (@paperflies_country_wins nodup_order country_A country_B
             (located None (Some "A")) (located None (Some "B")) "Acme" "A" "B");
      try reflexivity; try discriminate. right. reflexivity.
Defined.

Lemma merge_commutes_up_to_base_witness :
  exists r1 r2,
    @_merge nodup_order described_x described_y = Return r1
    /\ @_merge nodup_order described_y described_x = Return r2
    /\ Hotel_description r1 = "x" /\ Hotel_description r2 = "y"
    /\ Permutation (Hotel_booking_conditions r1) (Hotel_booking_conditions r2).
Proof.
  destruct (@merge_commutes_up_to_base nodup_order described_x described_y
              no_location no_location "Acme" "Patagonia"
              eq_refl eq_refl eq_refl eq_refl)
    as (r1 & r2 & l1 & l2 & H1 & H2 & _ & _ & _ & _ & Hb & _ & _ & _ & _
        & Hx & Hy & _).
  exists r1, r2. repeat split; try assumption.
  - apply Hx. discriminate.
  - apply Hy. discriminate.
Defined.

(** C5 (as stated) fails: two records of one hotel with descriptions "x"
    and "y" merge to "x" one way round and to "y" the other. *)
Lemma merge_order_changes_description :
  exists r1 r2,
    @_merge nodup_order described_x described_y = Return r1
    /\ @_merge nodup_order described_y described_x = Return r2
    /\ Hotel_id described_x = Hotel_id described_y
    /\ Hotel_description r1 = "x"
    /\ Hotel_description r2 = "y"
    /\ Hotel_description r1 <> Hotel_description r2.
Proof.
  do 2 eexists. split; [reflexivity|]. split; [reflexivity|].
  repeat split. discriminate.
Qed.

(** C6 (the code as it runs): a stored record with [lat = 0.0] merged with
    a record with [lat = 1.5] ends with [lat = 1.5]. *)
Theorem merge_overwrites_zero_lat :
  Hotel_location equator_hotel = Some (located (Some 0%float) None)
  /\ exists r l,
       @_merge nodup_order equator_hotel moved_hotel = Return r
       /\ Hotel_location r = Some l
       /\ Location_lat l = Some 1.5%float
       /\ Location_lat l <> Some 0%float.
Proof.
  split; [reflexivity|]. do 2 eexists. split; [reflexivity|].
  split; [reflexivity|]. split; [reflexivity|].
  simpl. intros H. apply (f_equal truthy_float) in H. vm_compute in H.
  discriminate.
Qed.

Lemma merge_rooms_once_amenities_appended_witness :
  exists r, @_merge nodup_order pictured pictured = Return r
    /\ count_occ Image_eq_dec (Images_rooms (Hotel_images r)) image_xy = 1
    /\ Images_amenities (Hotel_images r) = [image_xy; image_xy].
Proof.
  apply (@merge_rooms_once_amenities_appended nodup_order pictured pictured
           "Patagonia" "x" "y").
  - reflexivity.
  - simpl. left. reflexivity.
  - simpl. left. reflexivity.
Defined.

Lemma parse_required_and_defaults_witness :
  Patagonia.parse [("id", VStr "1")] = Raise (KeyError "destination")
  /\ exists h, Patagonia.parse patagonia_minimal = Return h
       /\ Obj.Images_rooms (Obj.Hotel_images h) = []
       /\ Obj.Hotel_description h = VStr "".
Proof.
  split.
  - apply (proj1 (parse_required_and_defaults SPatagonia [("id", VStr "1")])).
    reflexivity.
  - destruct (parse_required_and_defaults SPatagonia patagonia_minimal)
      as (_ & _ & Hreturns).
    destruct (Hreturns eq_refl eq_refl) as (h & Hh & Hd).
    exists h. simpl in Hd.
    destruct Hd as (Hdesc & _ & _ & _ & Hrooms & _).
    repeat split; [assumption | apply Hrooms | apply Hdesc]; reflexivity.
Defined.

(** C8 (as stated) fails: an empty Acme record raises [KeyError], which is
    not [MalformedRecordError]; and a Patagonia record that has its three
    required fields and no [images] raises too. *)
Lemma parse_raises_KeyError :
  Acme.parse [] = Raise (KeyError "Id")
  /\ exn_class (KeyError "Id") <> "MalformedRecordError"
  /\ first_missing patagonia_required_only (required_fields SPatagonia) = None
  /\ Patagonia.parse patagonia_required_only = Raise (KeyError "images").
Proof. repeat split. discriminate. Qed.

Lemma Acme_address_joined_witness :
  exists h, Acme.parse acme_required_only = Return h
    /\ Obj.Location_address (Obj.Hotel_location h) = VStr ", ".
Proof.
  destruct (Acme_address_joined acme_required_only eq_refl eq_refl)
    as (h & a & p & Hh & _ & _ & _ & _ & Hboth).
  exists h. split; [exact Hh|]. apply Hboth; reflexivity.
Defined.

(** C10 (as stated) fails: an Acme record with its required fields and a
    null [Address], or a numeric [PostalCode], raises [AttributeError] and
    no address is set. *)
Lemma Acme_address_not_str_raises :
  first_missing (acme_required_only ++ [("Address", VNone)])
                (required_fields SAcme) = None
  /\ Acme.parse (acme_required_only ++ [("Address", VNone)])
     = Raise (AttributeError "strip")
  /\ first_missing (acme_required_only ++ [("PostalCode", VInt 98269)])
                   (required_fields SAcme) = None
  /\ Acme.parse (acme_required_only ++ [("PostalCode", VInt 98269)])
     = Raise (AttributeError "strip").
Proof. repeat split. Qed.

(** The scenario of the specification, from raw records to the stored
    hotel: latitude from the first record, country from Paperflies. *)
Example scenario_lat_country :
  exists a b h l,
    parse_canonical SPatagonia patagonia_record = Some a
    /\ parse_canonical SPaperflies paperflies_record = Some b
    /\ @merge_and_save nodup_order [] [a; b] = Return [("1", h)]
    /\ Hotel_location h = Some l
    /\ Location_lat l = Some 1%float
    /\ Location_country l = Some "CountryX"
    /\ Hotel_source h = None.
Proof. do 4 eexists. repeat split. Qed.

(** ** More on reconciliation *)

Lemma fold_add_new_extends (xs vs : list Image) :
  exists extra, fold_left add_new xs vs = vs ++ extra.
Proof.
  revert vs. induction xs as [|x xs IH]; intros vs; simpl.
  - exists []. symmetry. apply app_nil_r.
  - destruct (IH (add_new vs x)) as [extra E]. rewrite E. unfold add_new.
    destruct (in_dec Image_eq_dec x vs).
    + eauto.
    + rewrite <- app_assoc. eauto.
Qed.

Lemma dedup_images_app_extends (xs ys : list Image) :
  NoDup xs -> exists extra, dedup_images (xs ++ ys) = xs ++ extra.
Proof.
  intros N. rewrite dedup_images_fold, fold_left_app, <- dedup_images_fold.
  rewrite (dedup_images_id xs N). apply fold_add_new_extends.
Qed.

Section MergeFields.
Context {set_order : SetOrder}.

(** X1: [_merge] raises only [AttributeError] for the missing [source],
    and does so exactly when both records have a location, the incoming one
    has a country that counts as true and the incoming record has no
    [source]. *)
Theorem _merge_raises_without_source (base incoming : Hotel) :
  (_merge base incoming = Raise (AttributeError "source")
   <-> exists bl il,
         Hotel_location base = Some bl
         /\ Hotel_location incoming = Some il
         /\ truthy_str (Location_country il) = true
         /\ Hotel_source incoming = None)
  /\ (forall e, _merge base incoming = Raise e -> e = AttributeError "source").
Proof.
  unfold _merge, merge_location, merge_country.
  destruct (Hotel_location base) as [bl|], (Hotel_location incoming) as [il|];
    simpl.
  - destruct (truthy_str (Location_country il)) eqn:T.
    + destruct (Hotel_source incoming) as [s|] eqn:S; simpl.
      * destruct (String.eqb s "Paperflies"); simpl; split.
        -- split; [discriminate|]. intros (? & ? & _ & _ & _ & N). discriminate.
        -- discriminate.
        -- split; [discriminate|]. intros (? & ? & _ & _ & _ & N). discriminate.
        -- discriminate.
      * split.
        -- split; [|reflexivity]. intros _. exists bl, il.
           repeat split; try reflexivity. exact T.
        -- intros e H. injection H as <-. reflexivity.
    + simpl. split.
      * split; [discriminate|].
        intros (? & il' & _ & E & T' & _). injection E as <-. congruence.
      * discriminate.
  - split; [split; [discriminate|] | discriminate].
    intros (? & ? & _ & N & _). discriminate.
  - split; [split; [discriminate|] | discriminate].
    intros (? & ? & N & _). discriminate.
  - split; [split; [discriminate|] | discriminate].
    intros (? & ? & N & _). discriminate.
Qed.

(** X2: after a merge the three set fields hold no entry twice, and hold
    exactly the entries of either record. *)
Theorem _merge_set_fields_union (base incoming r : Hotel) :
  _merge base incoming = Return r ->
  (NoDup (Amenities_general (Hotel_amenities r))
   /\ forall x, In x (Amenities_general (Hotel_amenities r))
                <-> In x (Amenities_general (Hotel_amenities base))
                    \/ In x (Amenities_general (Hotel_amenities incoming)))
  /\ (NoDup (Amenities_room (Hotel_amenities r))
      /\ forall x, In x (Amenities_room (Hotel_amenities r))
                   <-> In x (Amenities_room (Hotel_amenities base))
                       \/ In x (Amenities_room (Hotel_amenities incoming)))
  /\ (NoDup (Hotel_booking_conditions r)
      /\ forall x, In x (Hotel_booking_conditions r)
                   <-> In x (Hotel_booking_conditions base)
                       \/ In x (Hotel_booking_conditions incoming)).
Proof.
  intros H. destruct (_merge_fields base incoming r H)
    as (_ & _ & _ & _ & _ & Hgen & Hroom & _ & _ & _ & Hbook).
  rewrite Hgen, Hroom, Hbook.
  repeat split; try apply set_list_NoDup;
    rewrite set_list_In, in_app_iff; tauto.
Qed.

(** X3: after a merge the rooms and site galleries hold no image twice
    and hold exactly the images of either record; a stored gallery without
    repeats stays in front, in its order, and new images follow it. *)
Theorem _merge_galleries_union (base incoming r : Hotel) :
  _merge base incoming = Return r ->
  (NoDup (Images_rooms (Hotel_images r))
   /\ (forall x, In x (Images_rooms (Hotel_images r))
                 <-> In x (Images_rooms (Hotel_images base))
                     \/ In x (Images_rooms (Hotel_images incoming)))
   /\ (NoDup (Images_rooms (Hotel_images base)) ->
       exists extra, Images_rooms (Hotel_images r)
                     = Images_rooms (Hotel_images base) ++ extra))
  /\ (NoDup (Images_site (Hotel_images r))
      /\ (forall x, In x (Images_site (Hotel_images r))
                    <-> In x (Images_site (Hotel_images base))
                        \/ In x (Images_site (Hotel_images incoming)))
      /\ (NoDup (Images_site (Hotel_images base)) ->
          exists extra, Images_site (Hotel_images r)
                        = Images_site (Hotel_images base) ++ extra)).
Proof.
  intros H. destruct (_merge_fields base incoming r H)
    as (_ & _ & _ & _ & _ & _ & _ & Hrooms & Hsite & _ & _).
  rewrite Hrooms, Hsite.
  repeat split; try apply dedup_images_NoDup;
    try (rewrite dedup_images_In, in_app_iff; tauto);
    try (intros [i|i]; apply dedup_images_In, in_or_app; auto);
    apply dedup_images_app_extends.
Qed.

(** X4: a merge never changes the stored id, name or destination id, a
    stored description that is not empty, or a stored latitude, longitude,
    address or city that counts as true. *)
Theorem _merge_keeps_present_fields (base incoming r : Hotel) (bl : Location) :
  Hotel_location base = Some bl ->
  _merge base incoming = Return r ->
  Hotel_id r = Hotel_id base
  /\ Hotel_name r = Hotel_name base
  /\ Hotel_destination_id r = Hotel_destination_id base
  /\ (Hotel_description base <> "" -> Hotel_description r = Hotel_description base)
  /\ exists l, Hotel_location r = Some l
       /\ (truthy_float (Location_lat bl) = true -> Location_lat l = Location_lat bl)
       /\ (truthy_float (Location_lng bl) = true -> Location_lng l = Location_lng bl)
       /\ (truthy_str (Location_address bl) = true ->
           Location_address l = Location_address bl)
       /\ (truthy_str (Location_city bl) = true ->
           Location_city l = Location_city bl).
Proof.
  intros Hb H. destruct (_merge_fields base incoming r H)
    as (Hid & _ & Hdest & Hname & Hdesc & _).
  split; [exact Hid|]. split; [exact Hname|]. split; [exact Hdest|]. split.
  - intros N. rewrite Hdesc. apply String.eqb_neq in N. rewrite N. reflexivity.
  - revert H. unfold _merge. rewrite Hb.
    destruct (Hotel_location incoming) as [il|]; simpl.
    + unfold merge_location.
      destruct (merge_country _ _ _) as [c|e]; simpl; [|discriminate].
      intros H. injection H as <-. simpl. eexists. split; [reflexivity|].
      simpl. repeat split; intros T; apply fill_in_keeps, T.
    + intros H. injection H as <-. simpl. exists bl. repeat split.
Qed.

(** X5: the merged country, when both records have a location: the
    incoming country wins when it counts as true and either the incoming
    record is from Paperflies or the stored country does not count as true;
    in every other case the stored country stays. *)
Theorem _merge_country_rule (base incoming r : Hotel) (bl il : Location) :
  Hotel_location base = Some bl ->
  Hotel_location incoming = Some il ->
  _merge base incoming = Return r ->
  exists l, Hotel_location r = Some l
    /\ Location_country l
       = (if truthy_str (Location_country il)
             && (match Hotel_source incoming with
                 | Some s => String.eqb s "Paperflies"
                 | None => false
                 end
                 || negb (truthy_str (Location_country bl)))
          then Location_country il else Location_country bl).
Proof.
  intros Hb Hi. unfold _merge, merge_location, merge_country, fill_in.
  rewrite Hb, Hi.
  destruct (truthy_str (Location_country il)); simpl.
  - destruct (Hotel_source incoming) as [s|]; simpl; [|discriminate].
    destruct (String.eqb s "Paperflies"); simpl.
    + intros H. injection H as <-. simpl. eauto.
    + destruct (truthy_str (Location_country bl)); simpl;
        intros H; injection H as <-; simpl; eauto.
  - rewrite andb_false_r. simpl. intros H. injection H as <-. simpl. eauto.
Qed.

End MergeFields.

(** ** More on the stored collection *)

Lemma dict_get_In (d : hotels_dict) (k : string) (v : Hotel) :
  dict_get String.eqb d k = Some v -> In (k, v) d.
Proof.
  induction d as [|[k0 v0] d IH]; simpl; [discriminate|].
  destruct (String.eqb k k0) eqn:E.
  - apply String.eqb_eq in E. subst k0. intros H. injection H as <-. auto.
  - auto.
Qed.

Lemma dict_get_None (d : hotels_dict) (k : string) :
  dict_get String.eqb d k = None <-> ~ In k (map fst d).
Proof.
  induction d as [|[k0 v0] d IH]; simpl; [tauto|].
  destruct (String.eqb k k0) eqn:E.
  - apply String.eqb_eq in E. subst k0. split; [discriminate | tauto].
  - apply String.eqb_neq in E. rewrite IH. split; [|tauto].
    intros N [H|H]; [congruence | tauto].
Qed.

Lemma dict_set_keys (d : hotels_dict) (k : string) (v : Hotel) :
  map fst (dict_set String.eqb d k v)
  = if in_dec string_dec k (map fst d) then map fst d else map fst d ++ [k].
Proof.
  induction d as [|[k0 v0] d IH]; simpl; [reflexivity|].
  destruct (String.eqb k k0) eqn:E; simpl.
  - apply String.eqb_eq in E. subst k0.
    destruct (string_dec k k) as [e|n]; [reflexivity | contradiction].
  - apply String.eqb_neq in E.
    destruct (string_dec k0 k) as [e|n]; [congruence|].
    rewrite IH. destruct (in_dec string_dec k (map fst d)); reflexivity.
Qed.

Lemma dict_set_In (d : hotels_dict) (k k' : string) (v h : Hotel) :
  In (k', h) (dict_set String.eqb d k v) -> In (k', h) d \/ (k' = k /\ h = v).
Proof.
  induction d as [|[k0 v0] d IH]; simpl.
  - intros [H|[]]. injection H as <- <-. auto.
  - destruct (String.eqb k k0) eqn:E; simpl.
    + apply String.eqb_eq in E. subst k0.
      intros [H|H]; [injection H as <- <-|]; auto.
    + intros [H|H]; [auto|]. destruct (IH H); auto.
Qed.

Lemma store_ok_set (d : hotels_dict) (v : Hotel) :
  store_ok d -> store_ok (dict_set String.eqb d (Hotel_id v) v).
Proof.
  intros [N I]. split.
  - rewrite dict_set_keys.
    destruct (in_dec string_dec (Hotel_id v) (map fst d)) as [i|n]; [exact N|].
    apply NoDup_app; [exact N | repeat constructor; simpl; tauto |].
    intros a Ha [E|[]]. subst a. contradiction.
  - intros k h H. apply dict_set_In in H. destruct H as [H|[-> ->]]; auto.
Qed.

Lemma first_seen_In (ids keys : list string) (k : string) :
  In k (first_seen keys ids) <-> In k keys \/ In k ids.
Proof.
  unfold first_seen. revert keys.
  induction ids as [|i ids IH]; intros keys; simpl; [tauto|].
  rewrite IH. destruct (in_dec string_dec i keys) as [Hi|Hi].
  - split; [tauto|]. intros [H|[<-|H]]; auto.
  - rewrite in_app_iff. simpl. tauto.
Qed.

Section StoredCollection.
Context {set_order : SetOrder}.

Lemma merge_and_save_store_ok (data : list Hotel) (hotels hotels' : hotels_dict) :
  store_ok hotels ->
  merge_and_save hotels data = Return hotels' ->
  store_ok hotels'.
Proof.
  revert hotels. induction data as [|x data IH]; intros hotels Hok H; simpl in H.
  - injection H as <-. exact Hok.
  - destruct (dict_get String.eqb hotels (Hotel_id x)) as [base|] eqn:G.
    + destruct (_merge base x) as [merged|e] eqn:M; simpl in H; [|discriminate].
      apply (IH _) in H; [exact H|].
      destruct (_merge_fields base x merged M) as (Hid & _).
      apply dict_get_In in G. destruct Hok as [N I].
      rewrite <- (I _ _ G), <- Hid. apply store_ok_set. split; assumption.
    + apply (IH _) in H; [exact H|]. apply store_ok_set, Hok.
Qed.

Lemma merge_and_save_keys (data : list Hotel) (hotels hotels' : hotels_dict) :
  merge_and_save hotels data = Return hotels' ->
  map fst hotels' = first_seen (map fst hotels) (map Hotel_id data).
Proof.
  revert hotels. induction data as [|x data IH]; intros hotels H; simpl in H.
  - injection H as <-. reflexivity.
  - unfold first_seen. simpl. fold (first_seen
      (if in_dec string_dec (Hotel_id x) (map fst hotels)
       then map fst hotels else map fst hotels ++ [Hotel_id x])
      (map Hotel_id data)).
    destruct (dict_get String.eqb hotels (Hotel_id x)) as [base|].
    + destruct (_merge base x) as [merged|e]; simpl in H; [|discriminate].
      rewrite (IH _ H), dict_set_keys. reflexivity.
    + rewrite (IH _ H), dict_set_keys. reflexivity.
Qed.

(** What becomes of an entry: it stays under its key with its id, name and
    destination id, and has no [source] once it had none or a record of
    its id has come. *)
Lemma merge_and_save_entry (data : list Hotel) :
  forall (hotels hotels' : hotels_dict) (k : string) (b : Hotel),
    dict_get String.eqb hotels k = Some b ->
    merge_and_save hotels data = Return hotels' ->
    exists h, dict_get String.eqb hotels' k = Some h
      /\ Hotel_id h = Hotel_id b
      /\ Hotel_name h = Hotel_name b
      /\ Hotel_destination_id h = Hotel_destination_id b
      /\ (Hotel_source b = None \/ (exists x, In x data /\ Hotel_id x = k) ->
          Hotel_source h = None).
Proof.
  induction data as [|x data IH]; intros hotels hotels' k b G H; simpl in H.
  - injection H as <-. exists b. repeat split; try assumption.
    intros [S|(x & [] & _)]. exact S.
  - destruct (string_dec (Hotel_id x) k) as [E|N].
    + subst k. rewrite G in H.
      destruct (_merge b x) as [merged|e] eqn:M; simpl in H; [|discriminate].
      destruct (_merge_fields b x merged M) as (Hid & Hsrc & Hdest & Hname & _).
      destruct (IH _ _ (Hotel_id x) merged (dict_get_set_same _ _ _) H)
        as (h & Gh & Ih & Nh & Dh & Sh).
      exists h. repeat split; try congruence. intros _. apply Sh. left. exact Hsrc.
    + assert (forall v, dict_get String.eqb
                          (dict_set String.eqb hotels (Hotel_id x) v) k = Some b)
        as G' by (intros v; rewrite dict_get_set_other; assumption).
      assert (exists v, merge_and_save
                          (dict_set String.eqb hotels (Hotel_id x) v) data
                        = Return hotels') as (v & H').
      { destruct (dict_get String.eqb hotels (Hotel_id x)) as [base|].
        - destruct (_merge base x) as [merged|e]; simpl in H; [|discriminate].
          eauto.
        - eauto. }
      destruct (IH _ _ k b (G' v) H') as (h & Gh & Ih & Nh & Dh & Sh).
      exists h. repeat split; try assumption.
      intros [S|(y & [Ey|Hy] & Ky)]; apply Sh; auto.
      * subst y. contradiction.
      * right. eauto.
Qed.

(** X6: [merge_and_save] keeps the collection well formed: one entry per
    id, each hotel stored under its own id. *)
Theorem merge_and_save_one_entry_per_id (data : list Hotel)
    (hotels hotels' : hotels_dict) :
  store_ok hotels ->
  merge_and_save hotels data = Return hotels' ->
  NoDup (map fst hotels')
  /\ (forall k h, In (k, h) hotels' -> Hotel_id h = k)
  /\ NoDup (map Hotel_id (dict_values hotels')).
Proof.
  intros Hok H. destruct (merge_and_save_store_ok data hotels hotels' Hok H)
    as [N I].
  repeat split; try assumption.
  replace (map Hotel_id (dict_values hotels')) with (map fst hotels'); [exact N|].
  unfold dict_values. rewrite map_map. apply map_ext_in.
  intros [k h] Hin. simpl. symmetry. apply I, Hin.
Qed.

(** X7: on a fresh service the stored ids are the ids of the records,
    each once, in the order in which they are first seen. *)
Theorem merge_and_save_ids_first_seen (data : list Hotel) (hotels' : hotels_dict) :
  merge_and_save [] data = Return hotels' ->
  map fst hotels' = first_seen [] (map Hotel_id data)
  /\ forall k, In k (map fst hotels') <-> exists x, In x data /\ Hotel_id x = k.
Proof.
  intros H. pose proof (merge_and_save_keys data [] hotels' H) as K.
  simpl in K. split; [exact K|]. intros k. rewrite K, first_seen_In, in_map_iff.
  split.
  - intros [F|(x & E & Hx)]; [destruct F | eauto].
  - intros (x & Hx & E). right. eauto.
Qed.

(** X9: a hotel of which a second record comes later is stored without
    [source]. *)
Theorem merge_and_save_merged_loses_source (before after : list Hotel)
    (x y : Hotel) (hotels hotels' : hotels_dict) :
  In y after -> Hotel_id y = Hotel_id x ->
  merge_and_save hotels (before ++ x :: after) = Return hotels' ->
  exists h, dict_get String.eqb hotels' (Hotel_id x) = Some h
    /\ Hotel_source h = None.
Proof.
  intros Hy Ey H. rewrite merge_and_save_app in H.
  destruct (merge_and_save hotels before) as [hotels1|e]; simpl in H;
    [|discriminate].
  assert (exists v, merge_and_save
                      (dict_set String.eqb hotels1 (Hotel_id x) v) after
                    = Return hotels') as (v & H').
  { destruct (dict_get String.eqb hotels1 (Hotel_id x)) as [base|].
    - destruct (_merge base x) as [merged|e]; simpl in H; [|discriminate]. eauto.
    - eauto. }
  destruct (merge_and_save_entry after _ _ (Hotel_id x) v
              (dict_get_set_same _ _ _) H') as (h & Gh & _ & _ & _ & Sh).
  exists h. split; [exact Gh|]. apply Sh. right. eauto.
Qed.

(** X10: the first record of a hotel settles its name and destination
    id: on a fresh service, whatever records of the same id follow, the
    stored hotel has the name and the destination id of the first. *)
Theorem merge_and_save_first_record_names (before after : list Hotel)
    (x : Hotel) (hotels' : hotels_dict) :
  (forall y, In y before -> Hotel_id y <> Hotel_id x) ->
  merge_and_save [] (before ++ x :: after) = Return hotels' ->
  exists h, dict_get String.eqb hotels' (Hotel_id x) = Some h
    /\ Hotel_name h = Hotel_name x
    /\ Hotel_destination_id h = Hotel_destination_id x.
Proof.
  intros Hfirst H. rewrite merge_and_save_app in H.
  destruct (merge_and_save [] before) as [hotels1|e] eqn:E1; simpl in H;
    [|discriminate].
  rewrite (merge_and_save_untouched before [] hotels1 (Hotel_id x) Hfirst E1)
    in H.
  simpl in H.
  destruct (merge_and_save_entry after _ _ (Hotel_id x) x
              (dict_get_set_same _ _ _) H) as (h & Gh & _ & Nh & Dh & _).
  exists h. auto.
Qed.

(** X11: two calls in a row do what one call on the two inputs joined
    does. *)
Theorem merge_and_save_in_batches (first second : list Hotel)
    (hotels hotels1 : hotels_dict) :
  merge_and_save hotels first = Return hotels1 ->
  merge_and_save hotels1 second = merge_and_save hotels (first ++ second).
Proof. intros H. rewrite merge_and_save_app, H. reflexivity. Qed.

End StoredCollection.

(** ** More on the query layer *)

Lemma filter_distinct_keys {Item Key : Type} (key : Item -> Key)
    (keep : Item -> bool) (items : list Item) (N : NoDup (map key items)) :
  NoDup (map key (filter keep items)).
Proof.
  induction items as [|item items IH]; simpl in *; [constructor|].
  inversion N as [|? ? Hitem Hitems]; subst.
  destruct (keep item); simpl; [|auto].
  constructor; [|auto].
  intros Hin. apply Hitem. apply in_map_iff in Hin.
  destruct Hin as (x & E & Hx). apply filter_In in Hx.
  apply in_map_iff. exists x. tauto.
Qed.

Lemma existsb_string_In (k : string) (ids : list string) :
  existsb (String.eqb k) ids = true <-> In k ids.
Proof.
  rewrite existsb_exists. split.
  - intros (x & Hx & E). apply String.eqb_eq in E. subst x. exact Hx.
  - intros H. exists k. split; [exact H | apply String.eqb_refl].
Qed.

Lemma existsb_Z_In (d : Z) (ds : list Z) :
  existsb (Z.eqb d) ds = true <-> In d ds.
Proof.
  rewrite existsb_exists. split.
  - intros (x & Hx & E). apply Z.eqb_eq in E. subst x. exact Hx.
  - intros H. exists d. split; [exact H | apply Z.eqb_refl].
Qed.

Lemma find_loop_returns (hotels_data : list Hotel) (ds : list Z)
    (ids : list string) :
  forall (i : nat) (results : list Hotel),
    exists r, find_loop hotels_data (Some ds) i ids results = Return r.
Proof.
  induction ids as [|id ids IH]; intros i results; simpl.
  - eauto.
  - destruct (find_inner hotels_data id (nth_error ds i) results); eauto.
Qed.

Lemma find_loop_length (h0 : Hotel) (rest : list Hotel) (ds : list Z)
    (ids : list string) :
  forall (i : nat) (results l : list Hotel),
    find_loop (h0 :: rest) (Some ds) i ids results = Return (Some l) ->
    length l < length results + length ids.
Proof.
  induction ids as [|id ids IH]; intros i results l H; simpl in H.
  - discriminate.
  - destruct (position_match h0 id (nth_error ds i)).
    + apply IH in H. rewrite length_app in H. simpl in *. lia.
    + injection H as <-. simpl. lia.
Qed.

Lemma find_loop_None (h0 : Hotel) (rest : list Hotel) (ds : list Z)
    (ids : list string) :
  forall (i : nat) (results : list Hotel),
    find_loop (h0 :: rest) (Some ds) i ids results = Return None
    <-> forall j id, nth_error ids j = Some id ->
                     position_match h0 id (nth_error ds (i + j)) = true.
Proof.
  induction ids as [|id ids IH]; intros i results; simpl.
  - split; [|reflexivity]. intros _ j id H. destruct j; discriminate.
  - destruct (position_match h0 id (nth_error ds i)) eqn:M.
    + rewrite IH. split.
      * intros H j id' Hj. destruct j as [|j]; simpl in Hj.
        -- injection Hj as <-. rewrite Nat.add_0_r. exact M.
        -- replace (i + S j) with (S i + j) by lia. apply H, Hj.
      * intros H j id' Hj. replace (S i + j) with (i + S j) by lia.
        apply H. exact Hj.
    + split; [discriminate|]. intros H.
      specialize (H 0 id eq_refl). rewrite Nat.add_0_r in H. congruence.
Qed.

Lemma find_loop_empty (ds : list Z) (ids : list string) :
  forall (i : nat) (results : list Hotel),
    find_loop [] (Some ds) i ids results = Return None.
Proof.
  induction ids as [|id ids IH]; intros i results; simpl; [reflexivity | apply IH].
Qed.

(** X12: [find] raises only when both filters are [None]. *)
Theorem find_raises_only_without_filters (hotels : list (string * Hotel))
    (hotel_ids : option (list string)) (destination_ids : option (list Z)) :
  raises (find hotels hotel_ids destination_ids) = true
  <-> hotel_ids = None /\ destination_ids = None.
Proof.
  destruct hotel_ids as [ids|], destination_ids as [ds|]; simpl.
  - unfold find. simpl.
    destruct (find_loop_returns (dict_values hotels) ds ids 0 []) as [r ->].
    simpl. split; [discriminate | intros [N _]; discriminate].
  - split; [discriminate | intros [N _]; discriminate].
  - split; [discriminate | intros [_ N]; discriminate].
  - split; auto.
Qed.

Section FindAfterMerge.
Context {set_order : SetOrder}.

(** X13: after [merge_and_save] on a fresh service, [find] with hotel
    ids only returns the stored hotels whose id is asked for, no hotel twice,
    and one for every asked id that some record carried. *)
Theorem find_by_ids_after_merge (data : list Hotel)
    (hotels : list (string * Hotel)) (ids : list string) :
  merge_and_save [] data = Return hotels ->
  exists l, find hotels (Some ids) None = Return (Some l)
    /\ NoDup (map Hotel_id l)
    /\ (forall h, In h l <-> In h (dict_values hotels) /\ In (Hotel_id h) ids)
    /\ (forall x, In x data -> In (Hotel_id x) ids ->
                  exists h, In h l /\ Hotel_id h = Hotel_id x).
Proof.
  intros H. eexists. split; [reflexivity|].
  assert (store_ok []) as Hnil by (split; [constructor | intros ? ? []]).
  destruct (merge_and_save_store_ok data [] hotels Hnil H) as [N I].
  assert (map Hotel_id (dict_values hotels) = map fst hotels) as Eids.
  { unfold dict_values. rewrite map_map. apply map_ext_in.
    intros [k h] Hin. simpl. apply I, Hin. }
  assert (forall h, In h (filter (fun hotel => existsb (String.eqb (Hotel_id hotel)) ids)
                             (dict_values hotels))
                    <-> In h (dict_values hotels) /\ In (Hotel_id h) ids) as Hin.
  { intros h. rewrite filter_In, existsb_string_In. reflexivity. }
  split; [|split].
  - apply filter_distinct_keys. rewrite Eids. exact N.
  - exact Hin.
  - intros x Hx Hid.
    assert (In (Hotel_id x) (map fst hotels)) as Hk.
    { rewrite (merge_and_save_keys data [] hotels H). apply first_seen_In.
      right. apply in_map, Hx. }
    apply in_map_iff in Hk. destruct Hk as ([k h] & Ek & Hkh). simpl in Ek.
    subst k. exists h. split; [|apply I, Hkh].
    apply Hin. split.
    + unfold dict_values. apply in_map_iff. exists (Hotel_id x, h). auto.
    + rewrite (I _ _ Hkh). exact Hid.
Qed.

End FindAfterMerge.

(** X14: [find] with destination ids only returns the stored hotels
    whose destination id is in the list, none when the list is empty, and no
    hotel twice when the collection has one entry per id. *)
Theorem find_by_destination (hotels : list (string * Hotel)) (ds : list Z) :
  exists l, find hotels None (Some ds) = Return (Some l)
    /\ (forall h, In h l
                  <-> In h (dict_values hotels) /\ In (Hotel_destination_id h) ds)
    /\ (ds = [] -> l = [])
    /\ (store_ok hotels -> NoDup (map Hotel_id l)).
Proof.
  eexists. split; [reflexivity|]. split; [|split].
  - intros h. rewrite filter_In, existsb_Z_In. reflexivity.
  - intros ->. simpl. induction (dict_values hotels); simpl; auto.
  - intros [N I]. apply filter_distinct_keys.
    replace (map Hotel_id (dict_values hotels)) with (map fst hotels); [exact N|].
    unfold dict_values. rewrite map_map. apply map_ext_in.
    intros [k h] Hin. simpl. symmetry. apply I, Hin.
Qed.

(** X15: with both filters given, a returned list holds nothing but
    copies of the first stored hotel, and fewer of them than there are hotel
    ids. *)
Theorem find_both_returns_first_hotel (k : string) (h0 : Hotel)
    (hotels : list (string * Hotel)) (ids : list string) (ds : list Z)
    (l : list Hotel) :
  find ((k, h0) :: hotels) (Some ids) (Some ds) = Return (Some l) ->
  (forall x, In x l -> x = h0) /\ length l < length ids.
Proof.
  rewrite find_both_filters. simpl dict_values. intros H. split.
  - apply (find_loop_first_only h0 (map snd hotels) ds ids 0 [] l); [|exact H].
    intros x [].
  - apply find_loop_length in H. simpl in H. exact H.
Qed.

(** X16: with both filters given, [find] returns [None] rather than a
    list on every empty collection, and on a collection that is not empty
    exactly when every position matches the first stored hotel. *)
Theorem find_both_returns_None (ids : list string) (ds : list Z) :
  find [] (Some ids) (Some ds) = Return None
  /\ forall k h0 hotels,
       find ((k, h0) :: hotels) (Some ids) (Some ds) = Return None
       <-> forall j id, nth_error ids j = Some id ->
                        position_match h0 id (nth_error ds j) = true.
Proof.
  split.
  - rewrite find_both_filters. apply find_loop_empty.
  - intros k h0 hotels. rewrite find_both_filters. simpl dict_values.
    apply (find_loop_None h0 (map snd hotels) ds ids 0 []).
Qed.

(** ** More on the adapters *)

Ltac bind_inv H :=
  repeat match type of H with
         | bind ?c _ = Return _ =>
             let E := fresh "E" in
             destruct c eqn:E; simpl in H; [|discriminate]
         end.

Lemma traverse_Forall2 {A B : Type} (f : A -> outcome B) (xs : list A) :
  forall ys, traverse f xs = Return ys ->
             Forall2 (fun x y => f x = Return y) xs ys.
Proof.
  induction xs as [|x xs IH]; intros ys H; simpl in H.
  - injection H as <-. constructor.
  - bind_inv H. injection H as <-. constructor; auto.
Qed.

Lemma traverse_first_error {A B : Type} (f : A -> outcome B)
    (good : list A) (bad : A) (rest : list A) (e : exn) :
  Forall (fun x => raises (f x) = false) good ->
  f bad = Raise e ->
  traverse f (good ++ bad :: rest) = Raise e.
Proof.
  intros Hgood Hbad. induction Hgood as [|x good Hx _ IH]; simpl.
  - rewrite Hbad. reflexivity.
  - destruct (f x); [|discriminate]. simpl. rewrite IH. reflexivity.
Qed.

Lemma lower_char_idem (c : ascii) : lower_char (lower_char c) = lower_char c.
Proof. destruct c as [[] [] [] [] [] [] [] []]; reflexivity. Qed.

Lemma lower_idem (s : string) : lower (lower s) = lower s.
Proof.
  induction s as [|c s IH]; simpl; [reflexivity|].
  rewrite lower_char_idem, IH. reflexivity.
Qed.

Lemma parse_amenities_lowered (v : value) (l : list string) :
  parse_amenities v = Return l -> forall a, In a l -> lower a = a.
Proof.
  unfold parse_amenities. intros H. bind_inv H.
  apply traverse_Forall2 in H. clear E.
  induction H as [|x y xs ys Hx _ IH]; intros b Hb;
    [destruct Hb | destruct Hb as [Hb|Hb]].
  - subst b. destruct x; try discriminate. simpl in Hx.
    injection Hx as <-. apply lower_idem.
  - apply IH. assumption.
Qed.

Lemma lstrip_starts_clean (s : string) : starts_clean (lstrip s).
Proof.
  induction s as [|c s IH]; simpl; [exact I|].
  destruct (is_space c) eqn:E; [exact IH | exact E].
Qed.

Lemma lstrip_clean (s : string) : starts_clean s -> lstrip s = s.
Proof. destruct s as [|c s]; simpl; [reflexivity|]. intros ->. reflexivity. Qed.

Lemma rstrip_starts_clean (s : string) : starts_clean s -> starts_clean (rstrip s).
Proof.
  destruct s as [|c s]; simpl; [auto|]. intros H.
  destruct (rstrip s); [rewrite H|]; exact H.
Qed.

Lemma rstrip_idem (s : string) : rstrip (rstrip s) = rstrip s.
Proof.
  induction s as [|c s IH]; simpl; [reflexivity|].
  destruct (rstrip s) as [|c' r] eqn:E.
  - destruct (is_space c) eqn:Ec; simpl; [reflexivity|]. rewrite Ec. reflexivity.
  - simpl in *. rewrite IH. reflexivity.
Qed.

Lemma strip_idem (s : string) : strip (strip s) = strip s.
Proof.
  unfold strip.
  rewrite (lstrip_clean (rstrip (lstrip s))).
  - apply rstrip_idem.
  - apply rstrip_starts_clean, lstrip_starts_clean.
Qed.

Lemma split_comma_nonempty (arg : string) : split_comma arg <> [].
Proof.
  destruct arg as [|c rest]; simpl; [discriminate|].
  destruct (Ascii.eqb c ","); [discriminate|].
  destruct (split_comma rest); discriminate.
Qed.

Lemma split_comma_concat (arg : string) :
  String.concat "," (split_comma arg) = arg.
Proof.
  induction arg as [|c rest IH]; simpl; [reflexivity|].
  pose proof (split_comma_nonempty rest) as N.
  destruct (split_comma rest) as [|piece pieces]; [contradiction|].
  destruct (Ascii.eqb c ",") eqn:E.
  - apply Ascii.eqb_eq in E. subst c.
    change (String.concat "," ("" :: piece :: pieces))
      with (String "," (String.concat "," (piece :: pieces))).
    rewrite IH. reflexivity.
  - rewrite <- IH. destruct pieces; reflexivity.
Qed.

Lemma split_comma_pieces (arg : string) :
  Forall (fun piece => ~ In ","%char (list_ascii_of_string piece))
         (split_comma arg).
Proof.
  induction arg as [|c rest IH]; simpl.
  - constructor; [simpl; tauto | constructor].
  - destruct (Ascii.eqb c ",") eqn:E.
    + constructor; [simpl; tauto | exact IH].
    + destruct (split_comma rest) as [|piece pieces].
      * constructor; [|constructor]. simpl. intros [H|[]].
        subst c. discriminate.
      * inversion IH as [|? ? Hp Hps]; subst. constructor; [|exact Hps].
        simpl. intros [H|H]; [subst c; discriminate | auto].
Qed.

(** X17: a Patagonia record that has its required fields and no
    [images] key raises [KeyError] for that key, whatever else it holds. *)
Theorem Patagonia_parse_without_images (dto : dict) :
  first_missing dto (required_fields SPatagonia) = None ->
  absent dto "images" ->
  Patagonia.parse dto = Raise (KeyError "images").
Proof.
  intros Hreq Him.
  destruct (first_missing_three _ _ _ _ Hreq) as (v1 & v2 & v3 & H1 & H2 & H3).
  unfold Patagonia.parse.
  rewrite (getitem_present _ _ _ H1), (getitem_present _ _ _ H2),
    (getitem_present _ _ _ H3), (getitem_absent _ _ Him).
  reflexivity.
Qed.

(** X18: on an Acme record that has its required fields, [Acme.parse]
    returns when [Address] and [PostalCode] are each a string or absent,
    and raises [AttributeError] for [strip] in every other case. *)
Theorem Acme_parse_outcome (dto : dict) :
  first_missing dto (required_fields SAcme) = None ->
  (well_shaped SAcme dto = true /\ exists h, Acme.parse dto = Return h)
  \/ (well_shaped SAcme dto = false
      /\ Acme.parse dto = Raise (AttributeError "strip")).
Proof.
  intros Hreq.
  destruct (first_missing_three _ _ _ _ Hreq) as (v1 & v2 & v3 & H1 & H2 & H3).
  unfold Acme.parse.
  rewrite (getitem_present _ _ _ H1), (getitem_present _ _ _ H2),
    (getitem_present _ _ _ H3).
  simpl. unfold absent_or, get, lookup.
  destruct (dict_get String.eqb dto "Address") as [a|];
    [destruct a|]; simpl; auto;
    (destruct (dict_get String.eqb dto "PostalCode") as [p|];
     [destruct p|]; simpl; eauto).
Qed.

(** X19: the address an Acme record is given is made of two trimmed
    parts: trimming either again changes nothing. *)
Theorem Acme_address_parts_trimmed (dto : dict) (h : Obj.Hotel) :
  Acme.parse dto = Return h ->
  exists a p,
    Obj.Location_address (Obj.Hotel_location h) = VStr (a ++ ", " ++ p)%string
    /\ strip a = a /\ strip p = p.
Proof.
  intros H. destruct (Acme_parse_inv dto h H) as (a & p & _ & _ & E).
  exists (strip a), (strip p). rewrite !strip_idem. auto.
Qed.

(** X20: the image comprehensions keep the images one for one and in
    order: every entry of the raw list is a dict, and the parsed image at
    its position has the values under the link key and the description key. *)
Theorem parse_images_one_for_one (k_link k_desc : string) (raw : list value)
    (images : list Obj.Image) :
  parse_images k_link k_desc (VList raw) = Return images ->
  length images = length raw
  /\ Forall2 (fun v image =>
                exists d, v = VDict d
                  /\ lookup d k_link = Some (Obj.Image_link image)
                  /\ lookup d k_desc = Some (Obj.Image_description image))
             raw images.
Proof.
  unfold parse_images. simpl. intros H. apply traverse_Forall2 in H.
  split; [symmetry; apply (Forall2_length H)|].
  induction H as [|v image raw images Hv _ IH]; constructor; [|exact IH].
  destruct v as [| | | | | |d]; try discriminate. simpl in Hv.
  unfold getitem in Hv. exists d. unfold lookup.
  destruct (dict_get String.eqb d k_link); [|discriminate].
  destruct (dict_get String.eqb d k_desc); [|discriminate].
  simpl in Hv. injection Hv as <-. auto.
Qed.

(** X21: every amenity of a parsed Paperflies record is in lower case:
    lowering it again changes nothing. *)
Theorem Paperflies_amenities_lowered (dto : dict) (h : Obj.Hotel) :
  Paperflies.parse dto = Return h ->
  forall a,
    In a (Obj.Amenities_general (Obj.Hotel_amenities h))
    \/ In a (Obj.Amenities_room (Obj.Hotel_amenities h)) ->
    lower a = a.
Proof.
  unfold Paperflies.parse. intros H. bind_inv H. injection H as <-. simpl.
  intros amenity [Ha|Ha];
    match goal with
    | Hp : parse_amenities _ = Return ?l, Hin : In _ ?l |- _ =>
        exact (parse_amenities_lowered _ _ Hp _ Hin)
    end.
Qed.

(** X22: when [fetch] returns, it returns one hotel for every record of
    the response, in order, each the parse of its record. *)
Theorem fetch_one_per_record (s : supplier) (response : list dict)
    (hotels : list Obj.Hotel) :
  fetch s response = Return hotels ->
  length hotels = length response
  /\ Forall2 (fun dto h => parse_of s dto = Return h) response hotels.
Proof.
  intros H. apply traverse_Forall2 in H.
  split; [symmetry; apply (Forall2_length H) | exact H].
Qed.

(** X23: one record that does not parse fails the whole [fetch]: after
    records that parse, the exception of the first that does not is the
    exception of [fetch], whatever follows. *)
Theorem fetch_first_error (s : supplier) (good : list dict) (bad : dict)
    (rest : list dict) (e : exn) :
  Forall (fun dto => raises (parse_of s dto) = false) good ->
  parse_of s bad = Raise e ->
  fetch s (good ++ bad :: rest) = Raise e.
Proof. apply traverse_first_error. Qed.

(** X24: a hotel-id argument other than "none" is cut at its commas:
    the list is never empty, no id holds a comma, and the ids joined by
    commas give the argument back; "none" gives [None]. *)
Theorem hotel_ids_of_arg_pieces (arg : string) :
  (arg = "none" -> hotel_ids_of_arg arg = None)
  /\ (arg <> "none" ->
      exists ids, hotel_ids_of_arg arg = Some ids
        /\ ids <> []
        /\ String.concat "," ids = arg
        /\ Forall (fun id => ~ In ","%char (list_ascii_of_string id)) ids).
Proof.
  unfold hotel_ids_of_arg. split.
  - intros ->. reflexivity.
  - intros N. apply String.eqb_neq in N. rewrite N.
    exists (split_comma arg). split; [reflexivity|].
    split; [apply split_comma_nonempty|].
    split; [apply split_comma_concat | apply split_comma_pieces].
Qed.

(** ** More concrete runs *)

Lemma spa_bar_merge :
  exists r, @_merge nodup_order spa_hotel bar_hotel = Return r.
Proof. eexists. reflexivity. Defined.

Lemma _merge_set_fields_union_witness :
  exists r, @_merge nodup_order spa_hotel bar_hotel = Return r
    /\ NoDup (Amenities_general (Hotel_amenities r))
    /\ In "bar" (Amenities_general (Hotel_amenities r))
    /\ In "wifi" (Amenities_general (Hotel_amenities r)).
Proof.
  destruct spa_bar_merge as [r E]. exists r. split; [exact E|].
  destruct (@_merge_set_fields_union nodup_order spa_hotel bar_hotel r E)
    as ((N & I) & _).
  split; [exact N|]. split; apply I; simpl; auto.
Defined.

Lemma _merge_galleries_union_witness :
  exists r extra, @_merge nodup_order spa_hotel bar_hotel = Return r
    /\ NoDup (Images_rooms (Hotel_images r))
    /\ Images_rooms (Hotel_images r) = [image_xy] ++ extra.
Proof.
  destruct spa_bar_merge as [r E].
  destruct (@_merge_galleries_union nodup_order spa_hotel bar_hotel r E)
    as ((N & _ & P) & _).
  destruct P as [extra X].
  - simpl. repeat constructor. simpl. tauto.
  - exists r, extra. auto.
Defined.

Lemma _merge_keeps_present_fields_witness :
  exists r l, @_merge nodup_order spa_hotel bar_hotel = Return r
    /\ Hotel_name r = "H1"
    /\ Hotel_description r = "by the sea"
    /\ Hotel_location r = Some l
    /\ Location_lat l = Some 1.5%float.
Proof.
  destruct spa_bar_merge as [r E].
  destruct (@_merge_keeps_present_fields nodup_order spa_hotel bar_hotel r
              (located (Some 1.5%float) (Some "A")) eq_refl E)
    as (_ & Hname & _ & Hdesc & l & Hl & Hlat & _).
  exists r, l. repeat split; try assumption.
  - apply Hdesc. discriminate.
  - apply Hlat. reflexivity.
Defined.

Lemma _merge_country_rule_witness :
  exists r l, @_merge nodup_order spa_hotel bar_hotel = Return r
    /\ Hotel_location r = Some l
    /\ Location_country l = Some "A".
Proof.
  destruct spa_bar_merge as [r E].
  destruct (@_merge_country_rule nodup_order spa_hotel bar_hotel r
              (located (Some 1.5%float) (Some "A"))
              (located (Some 2.5%float) (Some "C")) eq_refl eq_refl E)
    as (l & Hl & Hc).
  exists r, l. auto.
Defined.

Lemma three_records_merge :
  exists hotels',
    @merge_and_save nodup_order []
      three_records
    = Return hotels'.
Proof. eexists. reflexivity. Defined.

Lemma merge_and_save_one_entry_per_id_witness :
  exists hotels',
    @merge_and_save nodup_order []
      three_records
    = Return hotels'
    /\ NoDup (map fst hotels')
    /\ NoDup (map Hotel_id (dict_values hotels')).
Proof.
  destruct three_records_merge as [hotels' E]. exists hotels'.
  destruct (@merge_and_save_one_entry_per_id nodup_order three_records []
              hotels') as (N & _ & N').
  - split; [constructor | intros ? ? []].
  - exact E.
  - auto.
Defined.

Lemma merge_and_save_ids_first_seen_witness :
  exists hotels',
    @merge_and_save nodup_order []
      three_records
    = Return hotels'
    /\ map fst hotels' = ["1"; "2"].
Proof.
  destruct three_records_merge as [hotels' E]. exists hotels'.
  split; [exact E|].
  exact (proj1 (@merge_and_save_ids_first_seen nodup_order three_records hotels' E)).
Defined.

Lemma merge_and_save_merged_loses_source_witness :
  exists hotels' h,
    @merge_and_save nodup_order []
      three_records
    = Return hotels'
    /\ dict_get String.eqb hotels' "1" = Some h
    /\ Hotel_source h = None.
Proof.
  destruct three_records_merge as [hotels' E].
  destruct (@merge_and_save_merged_loses_source nodup_order []
              [plain_hotel "2" "Acme" no_location "" no_images; bar_hotel]
              spa_hotel bar_hotel [] hotels')
    as (h & G & S).
  - simpl. auto.
  - reflexivity.
  - exact E.
  - exists hotels', h. auto.
Defined.

Lemma merge_and_save_first_record_names_witness :
  exists hotels' h,
    @merge_and_save nodup_order []
      [plain_hotel "2" "Acme" no_location "" no_images; spa_hotel; bar_hotel]
    = Return hotels'
    /\ dict_get String.eqb hotels' "1" = Some h
    /\ Hotel_name h = "H1"
    /\ Hotel_destination_id h = 5%Z.
Proof.
  assert (exists hotels',
            @merge_and_save nodup_order []
              [plain_hotel "2" "Acme" no_location "" no_images; spa_hotel; bar_hotel]
            = Return hotels') as [hotels' E] by (eexists; reflexivity).
  destruct (@merge_and_save_first_record_names nodup_order
              [plain_hotel "2" "Acme" no_location "" no_images] [bar_hotel]
              spa_hotel hotels')
    as (h & G & Hn & Hd).
  - intros y [<-|[]]. discriminate.
  - exact E.
  - exists hotels', h. auto.
Defined.

Lemma merge_and_save_in_batches_witness :
  @merge_and_save nodup_order [("1", spa_hotel)] [bar_hotel]
  = @merge_and_save nodup_order [] ([spa_hotel] ++ [bar_hotel]).
Proof.
  apply (@merge_and_save_in_batches nodup_order [spa_hotel] [bar_hotel] []).
  reflexivity.
Defined.

Lemma find_by_ids_after_merge_witness :
  exists hotels l,
    @merge_and_save nodup_order []
      three_records
    = Return hotels
    /\ find hotels (Some ["2"; "3"]) None = Return (Some l)
    /\ NoDup (map Hotel_id l)
    /\ exists h, In h l /\ Hotel_id h = "2".
Proof.
  destruct three_records_merge as [hotels E].
  destruct (@find_by_ids_after_merge nodup_order three_records hotels ["2"; "3"] E)
    as (l & F & N & _ & C).
  exists hotels, l. repeat split; try assumption.
  apply (C (plain_hotel "2" "Acme" no_location "" no_images)); simpl; auto.
Defined.

Lemma find_both_returns_first_hotel_witness :
  exists l, find two_hotels (Some ["1"; "2"]) (Some [5%Z; 5%Z]) = Return (Some l)
    /\ (forall x, In x l -> x = plain_hotel "1" "Acme" no_location "" no_images)
    /\ length l < 2.
Proof.
  eexists. split; [reflexivity|].
  apply (find_both_returns_first_hotel "1"
           (plain_hotel "1" "Acme" no_location "" no_images)
           [("2", plain_hotel "2" "Acme" no_location "" no_images)]
           ["1"; "2"] [5%Z; 5%Z]).
  reflexivity.
Defined.

Lemma Patagonia_parse_without_images_witness :
  Patagonia.parse patagonia_required_only = Raise (KeyError "images").
Proof. apply Patagonia_parse_without_images; reflexivity. Defined.

Lemma Acme_parse_outcome_witness :
  Acme.parse (acme_required_only ++ [("Address", VNone)])
  = Raise (AttributeError "strip").
Proof.
  destruct (Acme_parse_outcome (acme_required_only ++ [("Address", VNone)]) eq_refl)
    as [[W _]|[_ E]].
  - vm_compute in W. discriminate W.
  - exact E.
Defined.

Lemma Acme_address_parts_trimmed_witness :
  exists h a p,
    Acme.parse (acme_required_only
                ++ [("Address", VStr " 8 Sentosa Gateway ");
                    ("PostalCode", VStr "098269 ")]) = Return h
    /\ Obj.Location_address (Obj.Hotel_location h) = VStr (a ++ ", " ++ p)%string
    /\ strip a = a /\ strip p = p.
Proof.
  assert (exists h,
            Acme.parse (acme_required_only
                        ++ [("Address", VStr " 8 Sentosa Gateway ");
                            ("PostalCode", VStr "098269 ")]) = Return h)
    as [h E] by (eexists; reflexivity).
  destruct (Acme_address_parts_trimmed _ h E) as (a & p & Ha).
  exists h, a, p. auto.
Defined.

Lemma parse_images_one_for_one_witness :
  exists images,
    parse_images "url" "description"
      (VList [VDict [("url", VStr "x"); ("description", VStr "y")]])
    = Return images
    /\ length images = 1.
Proof.
  eexists. split; [reflexivity|].
  apply (parse_images_one_for_one "url" "description"
           [VDict [("url", VStr "x"); ("description", VStr "y")]]).
  reflexivity.
Defined.

Lemma Paperflies_amenities_lowered_witness :
  exists h,
    Paperflies.parse
      (paperflies_record
       ++ [("amenities", VDict [("general", VList [VStr "Outdoor Pool"])])])
    = Return h
    /\ forall a,
         In a (Obj.Amenities_general (Obj.Hotel_amenities h))
         \/ In a (Obj.Amenities_room (Obj.Hotel_amenities h)) ->
         lower a = a.
Proof.
  eexists. split; [reflexivity|].
  apply (Paperflies_amenities_lowered
           (paperflies_record
            ++ [("amenities", VDict [("general", VList [VStr "Outdoor Pool"])])])).
  reflexivity.
Defined.

Lemma fetch_one_per_record_witness :
  exists hotels,
    fetch SPatagonia [patagonia_minimal; patagonia_record] = Return hotels
    /\ length hotels = 2.
Proof.
  eexists. split; [reflexivity|].
  apply (fetch_one_per_record SPatagonia [patagonia_minimal; patagonia_record]).
  reflexivity.
Defined.

Lemma fetch_first_error_witness :
  fetch SPatagonia [patagonia_minimal; patagonia_required_only; patagonia_record]
  = Raise (KeyError "images").
Proof.
  apply (fetch_first_error SPatagonia [patagonia_minimal] patagonia_required_only
           [patagonia_record]).
  - repeat constructor.
  - reflexivity.
Defined.

(** ** The merge engine on shared objects *)



Lemma dict_get_stored {V : Type} (d : list (string * V)) (k : string) (v : V) :
  dict_get String.eqb d k = Some v -> In v (map snd d).
Proof.
  induction d as [|[k0 v0] d IH]; simpl; [discriminate|].
  destruct (String.eqb k k0).
  - intros H. injection H as <-. auto.
  - auto.
Qed.

Lemma dict_set_new {V : Type} (d : list (string * V)) (k : string) (v : V) :
  dict_get String.eqb d k = None -> dict_set String.eqb d k v = d ++ [(k, v)].
Proof.
  induction d as [|[k0 v0] d IH]; simpl; [reflexivity|].
  destruct (String.eqb k k0); [discriminate|]. intros H. rewrite (IH H).
  reflexivity.
Qed.

Lemma update_same {A : Type} (f : nat -> A) (r : nat) (v : A) :
  Heap.update f r v r = v.
Proof. unfold Heap.update. rewrite Nat.eqb_refl. reflexivity. Qed.

Lemma update_other {A : Type} (f : nat -> A) (r r' : nat) (v : A) :
  r' <> r -> Heap.update f r v r' = f r'.
Proof.
  intros N. unfold Heap.update. apply Nat.eqb_neq in N. rewrite N. reflexivity.
Qed.


Section SharedObjects.
Context {set_order : SetOrder}.

Lemma Heap_merge_returns (hp : Heap.heap) (base incoming : nat) (s : string) :
  Heap.source (Heap.hotel_at hp incoming) = Some s ->
  exists hp', Heap._merge hp base incoming = Return hp'.
Proof.
  intros Hs. unfold Heap._merge. rewrite Hs.
  destruct (Heap.location (Heap.hotel_at hp base)) as [lb|],
           (Heap.location (Heap.hotel_at hp incoming)) as [li|]; simpl; eauto.
  destruct (merge_location_returns (Heap.location_at hp lb)
              (Heap.location_at hp li) s) as (l & -> & _).
  simpl. eauto.
Qed.

(** What a merge leaves alone: every object but the base, and every
    location object but the base's. *)
Lemma Heap_merge_frame (hp hp' : Heap.heap) (base incoming : nat) :
  Heap._merge hp base incoming = Return hp' ->
  (forall r, r <> base -> Heap.hotel_at hp' r = Heap.hotel_at hp r)
  /\ (forall l, Heap.location (Heap.hotel_at hp base) <> Some l ->
                Heap.location_at hp' l = Heap.location_at hp l)
  /\ Heap.location (Heap.hotel_at hp' base)
     = match Heap.location (Heap.hotel_at hp base) with
       | Some lb => Some lb
       | None => Heap.location (Heap.hotel_at hp incoming)
       end.
Proof.
  unfold Heap._merge.
  destruct (Heap.location (Heap.hotel_at hp base)) as [lb|] eqn:Eb,
           (Heap.location (Heap.hotel_at hp incoming)) as [li|] eqn:Ei; simpl.
  - destruct (merge_location _ _ _) as [l|e]; simpl; [|discriminate].
    intros H. injection H as <-. simpl. repeat split.
    + intros r N. apply update_other, N.
    + intros l' N. apply update_other. congruence.
    + rewrite update_same. reflexivity.
  - intros H. injection H as <-. simpl. repeat split.
    + intros r N. apply update_other, N.
    + rewrite update_same. reflexivity.
  - intros H. injection H as <-. simpl. repeat split.
    + intros r N. apply update_other, N.
    + rewrite update_same. reflexivity.
  - intros H. injection H as <-. simpl. repeat split.
    + intros r N. apply update_other, N.
    + rewrite update_same. reflexivity.
Qed.

(** X8: [merge_and_save] returns (raises nothing) on any input of
    pairwise distinct objects, none of them stored in the service already,
    that all carry a [source]; whatever the service holds. *)
Theorem merge_and_save_fresh_returns (data : list nat) :
  forall (hp : Heap.heap) (hotels : list (string * nat)),
    NoDup data ->
    (forall r, In r data -> ~ In r (map snd hotels)) ->
    (forall r, In r data -> Heap.source (Heap.hotel_at hp r) <> None) ->
    exists result, Heap.merge_and_save hp hotels data = Return result.
Proof.
  induction data as [|hotel rest IH]; intros hp hotels Hnd Hfresh Hsrc; simpl.
  - eauto.
  - inversion Hnd as [|? ? Hhotel Hrest]; subst.
    destruct (dict_get String.eqb hotels (Heap.id (Heap.hotel_at hp hotel)))
      as [base|] eqn:G.
    + destruct (Heap.source (Heap.hotel_at hp hotel)) as [s|] eqn:S;
        [|exfalso; apply (Hsrc hotel); [left; reflexivity | exact S]].
      destruct (Heap_merge_returns hp base hotel s S) as [hp' M].
      rewrite M. simpl.
      destruct (Heap_merge_frame hp hp' base hotel M) as (Fr & _ & _).
      apply IH; [exact Hrest | |].
      * intros r Hr. apply Hfresh. right. exact Hr.
      * intros r Hr. rewrite Fr.
        -- apply Hsrc. right. exact Hr.
        -- intros ->. apply (Hfresh base); [right; exact Hr|].
           apply (dict_get_stored _ _ _ G).
    + apply IH; [exact Hrest | |].
      * intros r Hr. rewrite (dict_set_new _ _ _ G), map_app, in_app_iff.
        simpl. intros [Hin|[E|[]]].
        -- apply (Hfresh r); [right; exact Hr | exact Hin].
        -- subst r. contradiction.
      * intros r Hr. apply Hsrc. right. exact Hr.
Qed.

(** X25: one object passed three times: when it has a source and a
    location whose country counts as true, the second pass merges it into
    itself and deletes its [source], and the third raises [AttributeError];
    passed twice, [merge_and_save] returns. *)
Theorem merge_and_save_same_object_thrice (hp : Heap.heap) (h l : nat)
    (s : string) :
  Heap.source (Heap.hotel_at hp h) = Some s ->
  Heap.location (Heap.hotel_at hp h) = Some l ->
  truthy_str (Location_country (Heap.location_at hp l)) = true ->
  Heap.merge_and_save hp [] [h; h; h] = Raise (AttributeError "source")
  /\ exists result, Heap.merge_and_save hp [] [h; h] = Return result.
Proof.
  intros Hs Hl Hc.
  assert (exists hp1,
            Heap._merge hp h h = Return hp1
            /\ Heap.id (Heap.hotel_at hp1 h) = Heap.id (Heap.hotel_at hp h)
            /\ Heap._merge hp1 h h = Raise (AttributeError "source"))
    as (hp1 & M1 & Hid & M2).
  { unfold Heap._merge at 1. rewrite Hl, Hs.
    rewrite merge_location_same by discriminate. simpl.
    eexists. split; [reflexivity|]. split.
    - simpl. rewrite update_same. reflexivity.
    - unfold Heap._merge. simpl. rewrite !update_same. simpl.
      rewrite !update_same. unfold merge_location, merge_country.
      rewrite Hc. reflexivity. }
  simpl. rewrite !String.eqb_refl, M1. simpl. rewrite Hid, String.eqb_refl, M2.
  split; [reflexivity | eauto].
Qed.






End SharedObjects.

Lemma three_objects_unshared :
  Heap.unshared (Heap.of_records three_records spa_hotel) [0; 1; 2].
Proof.
  split.
  - repeat constructor; simpl; intuition discriminate.
  - intros r1 r2 l H1 H2 E1 E2. simpl in H1, H2.
    destruct H1 as [<-|[<-|[<-|[]]]]; destruct H2 as [<-|[<-|[<-|[]]]];
      simpl in E1, E2; congruence.
Defined.

Lemma merge_and_save_fresh_returns_witness :
  exists result,
    @Heap.merge_and_save nodup_order (Heap.of_records three_records spa_hotel)
      [] [0; 1; 2] = Return result.
Proof.
  apply (@merge_and_save_fresh_returns nodup_order [0; 1; 2]).
  - exact (proj1 three_objects_unshared).
  - intros r _ [].
  - intros r [<-|[<-|[<-|[]]]]; discriminate.
Defined.

Lemma merge_and_save_same_object_thrice_witness :
  @Heap.merge_and_save nodup_order (Heap.of_records [country_B] country_B)
    [] [0; 0; 0] = Raise (AttributeError "source").
Proof.
  exact (proj1 (@merge_and_save_same_object_thrice nodup_order
                  (Heap.of_records [country_B] country_B) 0 0 "Paperflies"
                  eq_refl eq_refl eq_refl)).
Defined.

